(** * Valuation of Brazilian banks: ROE against the CAPM cost of equity

    A shallow embedding of [valuation_bancos.py].  A pandas DataFrame is a list
    of rows, a column of [float64] is a list of [num].

    Numbers.  A [float64] is modelled by [num]: an exact rational, one of the
    two infinities, or NaN.  Rounding, overflow and the sign of zero are
    abstracted away (a finite value is the rational it denotes, zero is the
    positive zero); what pandas does with NaN and with the infinities is kept:
    division by zero, [dropna], the NaN-skipping reductions of [groupby].
    [num] carries the statements on which rows and which operands a result is
    made of.  Where the value itself is at stake, the annual SELIC rate, the
    same lines are embedded in binary64 arithmetic as well. *)

From Stdlib Require Import QArith Qcanon ZArith List Sorted FinFun String Ascii Bool.
From Stdlib Require Import Lia Lqa PrimFloat.
Import ListNotations.
Open Scope Z_scope.
Local Set Warnings "-inexact-float".

(* ------------------------------------------------------------------ *)
(** ** float64 values *)

Inductive num : Type :=
  | Fin (x : Qc)
  | PInf
  | NInf
  | NaN.

(** A float literal, written as a rational or decimal constant. *)
Definition flt (x : Q) : num := Fin (Q2Qc x).

(** [pd.isna] on a float: NaN only; the infinities are not missing values. *)
Definition isna (v : num) : bool :=
  match v with NaN => true | _ => false end.

Definition notna (v : num) : bool := negb (isna v).

(** The infinity carrying the sign read from a comparison with zero; a zero
    operand gives NaN (0/0 and inf*0). *)
Definition inf_sgn (c : comparison) : num :=
  match c with Gt => PInf | Lt => NInf | Eq => NaN end.

Definition nneg (a : num) : num :=
  match a with
  | Fin x => Fin (- x)%Qc
  | PInf => NInf
  | NInf => PInf
  | NaN => NaN
  end.

Definition nadd (a b : num) : num :=
  match a, b with
  | NaN, _ | _, NaN => NaN
  | Fin x, Fin y => Fin (x + y)%Qc
  | PInf, NInf | NInf, PInf => NaN
  | PInf, _ | _, PInf => PInf
  | NInf, _ | _, NInf => NInf
  end.

Definition nsub (a b : num) : num := nadd a (nneg b).

Definition nmul (a b : num) : num :=
  match a, b with
  | NaN, _ | _, NaN => NaN
  | Fin x, Fin y => Fin (x * y)%Qc
  | PInf, Fin y | Fin y, PInf => inf_sgn (y ?= 0)%Qc
  | NInf, Fin y | Fin y, NInf => inf_sgn (0 ?= y)%Qc
  | PInf, PInf | NInf, NInf => PInf
  | PInf, NInf | NInf, PInf => NInf
  end.

(** True division of floats as numpy does it: x/0 is an infinity with the sign
    of x, 0/0 is NaN, and nothing is raised. *)
Definition ndiv (a b : num) : num :=
  match a, b with
  | NaN, _ | _, NaN => NaN
  | Fin x, Fin y =>
      if Qc_eq_dec y 0 then inf_sgn (x ?= 0)%Qc else Fin (x / y)%Qc
  | Fin _, _ => Fin 0%Qc
  | PInf, Fin y => match (y ?= 0)%Qc with Lt => NInf | _ => PInf end
  | NInf, Fin y => match (y ?= 0)%Qc with Lt => PInf | _ => NInf end
  | _, _ => NaN
  end.


Declare Scope num_scope.
Delimit Scope num_scope with num.
Bind Scope num_scope with num.
Infix "+" := nadd : num_scope.
Infix "-" := nsub : num_scope.
Infix "*" := nmul : num_scope.
Infix "/" := ndiv : num_scope.

(** The NaN-skipping reductions behind [groupby(...).sum()] and
    [groupby(...).prod()] ([skipna=True], [min_count=0]). *)
Definition nansum (l : list num) : num :=
  fold_left nadd (filter notna l) (flt 0).

Definition nanprod (l : list num) : num :=
  fold_left nmul (filter notna l) (flt 1).

(* ------------------------------------------------------------------ *)
(** ** Tables keyed by year *)

(** A two-column frame: the year and one float column. *)
Definition serie_anual : Type := list (Z * num).

(** The row of a year, as [df[df.ano == a]] would select it (first match). *)
Fixpoint buscar (a : Z) (t : serie_anual) : option num :=
  match t with
  | [] => None
  | (k, v) :: t' => if k =? a then Some v else buscar a t'
  end.

(** Insertion of a key in an ascending list without repeats. *)
Fixpoint inserir (k : Z) (l : list Z) : list Z :=
  match l with
  | [] => [k]
  | x :: t =>
      if k <? x then k :: l
      else if k =? x then l
      else x :: inserir k t
  end.

(** The group keys of a [groupby] ([sort=True]): each key once, ascending. *)
Definition chaves (l : list Z) : list Z := fold_right inserir [] l.

(** [df.groupby(chave)]: every key with its rows, in the frame's order. *)
Definition agrupar {A : Type} (chave : A -> Z) (l : list A) : list (Z * list A) :=
  map (fun k => (k, filter (fun x => chave x =? k) l)) (chaves (map chave l)).

(* ------------------------------------------------------------------ *)
(** ** 5. ROE (Lucro_t / PL_(t-1)) *)

Record linha_roe : Type := {
  Ano : Z;
  Lucro_Liquido : num;
  PL_Controlador : num;
  PL_Inicial : num;
  ROE : num
}.

(** [pd.merge(esq, dir, on="Ano", how="inner")]: the order of the left keys is
    kept, a left row pairs with every right row of its year. *)
Definition merge_ano (esq dir : serie_anual) : list (Z * (num * num)) :=
  flat_map
    (fun l => map (fun r => (fst l, (snd l, snd r)))
                  (filter (fun r => fst r =? fst l) dir))
    esq.

(** [Series.shift(1)]: every value moves one row down, the first row gets NaN
    and the last value falls off. *)
Definition shift (col : list num) : list num :=
  firstn (List.length col) (NaN :: col).

(** [DataFrame.dropna()] on the ROE frame: a row goes as soon as one of its
    float columns is NaN. *)
Definition linha_completa (r : linha_roe) : bool :=
  notna (Lucro_Liquido r) && notna (PL_Controlador r)
  && notna (PL_Inicial r) && notna (ROE r).

(** Lines 180-182: the merged frame with its two new columns, before
    [dropna]. *)
Definition roe_antes_dropna (df_lucro df_pl : serie_anual) : list linha_roe :=
  let df := merge_ano df_lucro df_pl in
  let pl_inicial := shift (map (fun r => snd (snd r)) df) in
  map (fun rp =>
         let '((a, (lucro, pl)), ini) := rp in
         {| Ano := a; Lucro_Liquido := lucro; PL_Controlador := pl;
            PL_Inicial := ini; ROE := (lucro / ini)%num |})
      (combine df pl_inicial).

Definition calcular_roe (df_lucro df_pl : serie_anual) : list linha_roe :=
  filter linha_completa (roe_antes_dropna df_lucro df_pl).

(** The frame of lines 181-182 row by row: [ant] is the equity of the row
    above, NaN above the first row. *)
Fixpoint linhas_roe (ant : num) (df : list (Z * (num * num))) : list linha_roe :=
  match df with
  | [] => []
  | (a, (lucro, pl)) :: resto =>
      {| Ano := a; Lucro_Liquido := lucro; PL_Controlador := pl;
         PL_Inicial := ant; ROE := (lucro / ant)%num |}
      :: linhas_roe pl resto
  end.

(** The value a table holds for a year, NaN when it has none. *)
Definition valor_em (t : serie_anual) (k : Z) : num :=
  match buscar k t with Some v => v | None => NaN end.

(* ------------------------------------------------------------------ *)
(** ** Exceptions *)

Inductive excecao : Type :=
  | RuntimeError (msg : string)
  | KeyError (coluna : string)
  | ErroExterno (msg : string).

(** A call that returns a value or raises. *)
Inductive result (A : Type) : Type :=
  | Ok (a : A)
  | Raise (e : excecao).
Arguments Ok {A} a.
Arguments Raise {A} e.

Definition bind {A B : Type} (m : result A) (k : A -> result B) : result B :=
  match m with
  | Ok a => k a
  | Raise e => Raise e
  end.

Notation "x <- m ;; k" := (bind m (fun x => k))
  (at level 61, m at next level, right associativity).

(* ------------------------------------------------------------------ *)
(** ** CVM disclosure records (DFP, consolidated DRE and BPP tables) *)

(** A timestamp; [.dt.year] is the projection [ano_de]. *)
Record data : Type := { ano_de : Z; mes_de : Z; dia_de : Z }.

(** A row of a DRE or BPP table.  The files of the CVM write [VL_CONTA] with
    decimals, so [pd.read_csv] gives a column of float64. *)
Record registro : Type := {
  CNPJ_CIA : string;
  DT_REFER : data;
  ORDEM_EXERC : string;
  CD_CONTA : string;
  DS_CONTA : string;
  VL_CONTA : num
}.

(** Case folding for [str.contains(..., case=False)], on UTF-8 bytes: the
    ASCII letters and the two-byte Latin-1 capitals (C3 80 .. C3 9E but the
    multiplication sign), which covers the Portuguese alphabet. *)
Definition minuscula_ascii (c : ascii) : ascii :=
  let n := nat_of_ascii c in
  if ((65 <=? n) && (n <=? 90))%nat then ascii_of_nat (n + 32) else c.

Definition minuscula_latin1 (d : ascii) : ascii :=
  let n := nat_of_ascii d in
  if ((128 <=? n) && (n <=? 158) && negb (n =? 151))%nat
  then ascii_of_nat (n + 32) else d.

Fixpoint minusculas (s : string) : string :=
  match s with
  | EmptyString => EmptyString
  | String c s' =>
      if (nat_of_ascii c =? 195)%nat then
        match s' with
        | EmptyString => String c EmptyString
        | String d s'' => String c (String (minuscula_latin1 d) (minusculas s''))
        end
      else String (minuscula_ascii c) (minusculas s')
  end.

(** [sub in s]. *)
Fixpoint contem (sub s : string) : bool :=
  match s with
  | EmptyString => prefix sub s
  | String _ s' => prefix sub s || contem sub s'
  end.

Definition contem_sem_caixa (padrao s : string) : bool :=
  contem (minusculas padrao) (minusculas s).

(* ------------------------------------------------------------------ *)
(** ** 3. Lucro liquido do controlador (DRE) *)

(** [dre] without rows is [pd.DataFrame()], the frame [baixar_dados_cvm] builds
    when no DRE table came: it has no column and [dre["CNPJ_CIA"]] raises. *)
Definition extrair_lucro (dre : list registro) (cnpj : string) : result serie_anual :=
  match dre with
  | [] => Raise (KeyError "CNPJ_CIA")
  | _ =>
      let banco := filter (fun r => String.eqb (CNPJ_CIA r) cnpj) dre in
      let df :=
        filter (fun r => contem_sem_caixa "Lucro/Prejuízo" (DS_CONTA r)
                         && String.eqb (ORDEM_EXERC r) "ÚLTIMO") banco in
      let linhas :=
        map (fun r => (ano_de (DT_REFER r), (VL_CONTA r * flt 1000)%num)) df in
      Ok (map (fun g => (fst g, nansum (map snd (snd g)))) (agrupar fst linhas))
  end.

(* ------------------------------------------------------------------ *)
(** ** 4. Patrimonio liquido do controlador (BPP) *)

Definition conta_pl_total : string := "2.08".
Definition conta_nao_controladores : string := "2.08.09".

(** One cell of [pivot_table(index="Ano", columns="CD_CONTA", aggfunc="sum")]:
    the NaN-skipping sum of the year's rows of that account, NaN when the year
    has no row of it. *)
Definition celula (df : list (Z * (string * num))) (a : Z) (conta : string) : num :=
  match filter (fun r => (fst r =? a) && String.eqb (fst (snd r)) conta) df with
  | [] => NaN
  | g => nansum (map (fun r => snd (snd r)) g)
  end.

(** The pivot restricted to the two accounts the frame was filtered to: one
    row per year, ascending; a year whose cells are all NaN has no row
    ([dropna=True]). *)
Definition pivot_table (df : list (Z * (string * num))) : list (Z * (num * num)) :=
  filter (fun l => notna (fst (snd l)) || notna (snd (snd l)))
         (map (fun a => (a, (celula df a conta_pl_total,
                             celula df a conta_nao_controladores)))
              (chaves (map fst df))).

(** [pivot.get(conta, pd.Series(0, index=pivot.index))]: the column when the
    pivot has it (some year has a value for the account, the other years hold
    NaN), the series of zeros only when the column does not exist. *)
Definition pivot_get (coluna : list num) : list num :=
  if existsb notna coluna then coluna else map (fun _ => flt 0) coluna.

Definition PL_Controlador_de (pivot : list (Z * (num * num))) : serie_anual :=
  let total := pivot_get (map (fun l => fst (snd l)) pivot) in
  let minoritarios := pivot_get (map (fun l => snd (snd l)) pivot) in
  combine (map fst pivot)
          (map (fun tm => (fst tm - snd tm)%num) (combine total minoritarios)).

Definition extrair_pl (bpp : list registro) (cnpj : string) : result serie_anual :=
  match bpp with
  | [] => Raise (KeyError "CNPJ_CIA")
  | _ =>
      let banco := filter (fun r => String.eqb (CNPJ_CIA r) cnpj) bpp in
      let df :=
        filter (fun r => (String.eqb (CD_CONTA r) conta_pl_total
                          || String.eqb (CD_CONTA r) conta_nao_controladores)
                         && String.eqb (ORDEM_EXERC r) "ÚLTIMO") banco in
      let linhas :=
        map (fun r => (ano_de (DT_REFER r),
                       (CD_CONTA r, (VL_CONTA r * flt 1000)%num))) df in
      Ok (PL_Controlador_de (pivot_table linhas))
  end.

(* ------------------------------------------------------------------ *)
(** ** 7. SELIC anual (BCB, serie 11) *)

(** The windows of [range(ano_ini, ano_fim + 1, 10)], each with its
    [fim_bloco]. *)
Definition blocos (ano_ini ano_fim : Z) : list (Z * Z) :=
  map (fun i => let inicio := ano_ini + 10 * Z.of_nat i in
                (inicio, Z.min (inicio + 9) ano_fim))
      (seq 0 (Z.to_nat ((ano_fim - ano_ini + 10) / 10))).

(** Lines 224-232: the daily percentages turned into factors, multiplied
    within each year, minus one. *)
Definition fator_diario (valor : num) : num := (flt 1 + valor / flt 100)%num.

Definition anualizar_selic (todos : list (data * num)) : serie_anual :=
  map (fun g => (fst g, (nanprod (map (fun p => fator_diario (snd p)) (snd g))
                         - flt 1)%num))
      (agrupar (fun p => ano_de (fst p)) todos).

Fixpoint baixar_blocos (bcb : Z -> Z -> result (list (data * num)))
    (bs : list (Z * Z)) : result (list (data * num)) :=
  match bs with
  | [] => Ok []
  | b :: resto =>
      pontos <- bcb (fst b) (snd b) ;;
      demais <- baixar_blocos bcb resto ;;
      Ok (pontos ++ demais)
  end.

Definition baixar_selic (bcb : Z -> Z -> result (list (data * num)))
    (ano_ini ano_fim : Z) : result serie_anual :=
  todos <- baixar_blocos bcb (blocos ano_ini ano_fim) ;;
  match todos with
  | [] => Raise (KeyError "data")
  | _ => Ok (anualizar_selic todos)
  end.





(* ------------------------------------------------------------------ *)
(** ** 8. Retorno anual do IBOV *)

(** The [first] and [last] aggregations of a group: the first and the last
    value that is not NaN, NaN when the group has none. *)
Definition primeiro_valido (l : list num) : num :=
  hd NaN (filter notna l).

Definition ultimo_valido (l : list num) : num :=
  last (filter notna l) NaN.

(** The Adj Close column of one year's group, in the order of the rows. *)
Definition precos_do_ano (a : Z) (ibov : list (data * num)) : list num :=
  map snd (filter (fun p => ano_de (fst p) =? a) ibov).

(** Lines 250-259, on the rows (Date, Adj Close) of the download. *)
Definition anualizar_ibov (ibov : list (data * num)) : serie_anual :=
  map (fun g =>
         let precos := map snd (snd g) in
         (fst g, (ultimo_valido precos / primeiro_valido precos - flt 1)%num))
      (agrupar (fun p => ano_de (fst p)) ibov).

(** [yf] is the download of lines 240-246: its rows, or what it raises. *)
Definition baixar_ibov_anual (yf : Z -> Z -> result (list (data * num)))
    (ano_ini ano_fim : Z) : result serie_anual :=
  ibov <- yf ano_ini ano_fim ;;
  Ok (anualizar_ibov ibov).

(* ------------------------------------------------------------------ *)
(** ** 9. CAPM + spread de valor *)

Record linha_capm : Type := {
  base : linha_roe;
  beta : num;
  Rf : num;
  Rm : num;
  Ke : num;
  spread_valor : num
}.

Definition calcular_capm (df_roe : list linha_roe) (df_selic df_ibov : serie_anual)
    (beta : num) : list linha_capm :=
  let com_rf :=
    flat_map (fun r => map (fun s => (r, snd s))
                           (filter (fun s => fst s =? Ano r) df_selic)) df_roe in
  let com_rm :=
    flat_map (fun l => map (fun m => (l, snd m))
                           (filter (fun m => fst m =? Ano (fst l)) df_ibov)) com_rf in
  map (fun l =>
         let '((r, rf), rm) := l in
         let premio_risco := (rm - rf)%num in
         let ke := (rf + beta * premio_risco)%num in
         {| base := r; beta := beta; Rf := rf; Rm := rm; Ke := ke;
            spread_valor := (ROE r - ke)%num |})
      com_rm.

(* ------------------------------------------------------------------ *)
(** ** External collaborators *)

(** What the script reads from outside, one field per source:
    - [cvm ano]: the consolidated DRE and BPP tables of the year's DFP archive,
      [None] when [baixar_dfp_zip] could not get it (any exception there is
      caught and turned into [None]);
    - [bcb inicio fim]: the SELIC points of one window, or the exception of
      [requests];
    - [yf_ibov ano_ini ano_fim]: the rows (Date, Adj Close) of the benchmark,
      or the exception of the download;
    - [yf_retornos ticker]: lines 191-199, the monthly returns of the stock
      and of the benchmark after [resample], [pct_change] and [dropna], one
      pair per month present in both;
    - [ols ret]: statsmodels' [OLS(ret["ACAO"], add_constant(ret["IBOV"]))
      .fit().params["IBOV"]], a slope or the exception it raises. *)
Record Fontes : Type := {
  cvm : Z -> option (list registro * list registro);
  bcb : Z -> Z -> result (list (data * num));
  yf_ibov : Z -> Z -> result (list (data * num));
  yf_retornos : string -> result (list (num * num));
  ols : list (num * num) -> result num
}.

(* ------------------------------------------------------------------ *)
(** ** 2. Download of the DFP archives, one request per year *)

Fixpoint baixar_dados_cvm (fonte : Z -> option (list registro * list registro))
    (anos : list Z) : list registro * list registro * list Z :=
  match anos with
  | [] => ([], [], [])
  | ano :: resto =>
      let '(dre_total, bpp_total, anos_ok) := baixar_dados_cvm fonte resto in
      match fonte ano with
      | None => (dre_total, bpp_total, anos_ok)
      | Some (dre, bpp) => (dre ++ dre_total, bpp ++ bpp_total, ano :: anos_ok)
      end
  end.

(* ------------------------------------------------------------------ *)
(** ** 6. Beta via OLS (retornos mensais) *)

(** No test on the number of months stands between the returns and the
    regression. *)
Definition calcular_beta (w : Fontes) (ticker : string) : result num :=
  ret <- yf_retornos w ticker ;;
  ols w ret.

(* ------------------------------------------------------------------ *)
(** ** Configuration *)

Record banco : Type := { nome : string; ticker : string; cnpj : string }.

Definition BANCOS : list banco := [
  {| nome := "Itaú Unibanco"; ticker := "ITUB4.SA"; cnpj := "60.872.504/0001-23" |};
  {| nome := "Bradesco"; ticker := "BBDC4.SA"; cnpj := "60.746.948/0001-12" |};
  {| nome := "Banco do Brasil"; ticker := "BBAS3.SA"; cnpj := "00.000.000/0001-91" |};
  {| nome := "Santander BR"; ticker := "SANB11.SA"; cnpj := "90.400.888/0001-42" |}
].

Definition ANO_INICIAL : Z := 2010.
Definition ANO_FINAL : Z := 2024.

(** [range(a, b)]. *)
Definition range (a b : Z) : list Z :=
  map (fun i => a + Z.of_nat i) (seq 0 (Z.to_nat (b - a))).

Definition ANOS : list Z := range ANO_INICIAL (ANO_FINAL + 1).

(* ------------------------------------------------------------------ *)
(** ** Main *)

(** [resultados]: a dict from the bank's name to its table, in insertion
    order. *)
Definition dict (V : Type) : Type := list (string * V).

Fixpoint dict_set {V : Type} (k : string) (v : V) (d : dict V) : dict V :=
  match d with
  | [] => [(k, v)]
  | (k', v') :: t =>
      if String.eqb k' k then (k, v) :: t else (k', v') :: dict_set k v t
  end.

Fixpoint dict_get {V : Type} (k : string) (d : dict V) : option V :=
  match d with
  | [] => None
  | (k', v) :: t => if String.eqb k' k then Some v else dict_get k t
  end.

(** One turn of the loop over [BANCOS]: [None] is the [continue] taken when
    the ROE table is empty. *)
Definition processar_banco (w : Fontes) (dre_total bpp_total : list registro)
    (df_selic df_ibov : serie_anual) (b : banco) : result (option (list linha_capm)) :=
  df_lucro <- extrair_lucro dre_total (cnpj b) ;;
  df_pl <- extrair_pl bpp_total (cnpj b) ;;
  match calcular_roe df_lucro df_pl with
  | [] => Ok None
  | df_roe =>
      beta <- calcular_beta w (ticker b) ;;
      Ok (Some (calcular_capm df_roe df_selic df_ibov beta))
  end.

Fixpoint laco_bancos (w : Fontes) (dre_total bpp_total : list registro)
    (df_selic df_ibov : serie_anual) (bancos : list banco)
    (resultados : dict (list linha_capm)) : result (dict (list linha_capm)) :=
  match bancos with
  | [] => Ok resultados
  | b :: resto =>
      r <- processar_banco w dre_total bpp_total df_selic df_ibov b ;;
      laco_bancos w dre_total bpp_total df_selic df_ibov resto
        (match r with
         | None => resultados
         | Some df_capm => dict_set (nome b) df_capm resultados
         end)
  end.

Definition msg_nenhum_ano : string := "Nenhum ano da CVM foi baixado com sucesso.".

(** The script up to the end of the loop: the dict [resultados], or the
    exception that left the script. *)
Definition resultados_de (w : Fontes) : result (dict (list linha_capm)) :=
  let '(dre_total, bpp_total, anos_baixados) := baixar_dados_cvm (cvm w) ANOS in
  match anos_baixados with
  | [] => Raise (RuntimeError msg_nenhum_ano)
  | _ =>
      df_selic <- baixar_selic (bcb w) ANO_INICIAL ANO_FINAL ;;
      df_ibov <- baixar_ibov_anual (yf_ibov w) ANO_INICIAL ANO_FINAL ;;
      laco_bancos w dre_total bpp_total df_selic df_ibov BANCOS []
  end.

(** How a run ends: an uncaught exception; the message
    "[ERRO] Nenhum banco processado com sucesso." with no workbook written;
    or the workbook [criar_excel] writes from [resultados]. *)
Inductive saida : Type :=
  | Excecao (e : excecao)
  | ErroNenhumBanco
  | Planilha (resultados : dict (list linha_capm)).

Definition main (w : Fontes) : saida :=
  match resultados_de w with
  | Raise e => Excecao e
  | Ok [] => ErroNenhumBanco
  | Ok resultados => Planilha resultados
  end.


Definition anos_baixados_de (w : Fontes) : list Z :=
  snd (baixar_dados_cvm (cvm w) ANOS).

(* ------------------------------------------------------------------ *)
(** ** Sample inputs *)

Definition dia (a m d : Z) : data := {| ano_de := a; mes_de := m; dia_de := d |}.



(** Income and equity of the years 2020 and 2022 only: the year 2021 is
    missing from both tables ([baixar_dados_cvm] skips a year whose archive is
    unavailable). *)
Definition lucro_com_lacuna : serie_anual := [(2020, flt 100); (2022, flt 120)].
Definition pl_com_lacuna : serie_anual := [(2020, flt 1000); (2022, flt 1200)].

(** The end-to-end scenario: income of 2021-2022, equity of 2020-2022. *)
Definition lucro_cenario : serie_anual := [(2021, flt 100); (2022, flt 120)].
Definition pl_cenario : serie_anual :=
  [(2020, flt 1000); (2021, flt 1100); (2022, flt 1200)].

(** The row the valuation stage gives for 2022 in that scenario, with
    beta = 1.2, Rf(2022) = 5% and Rm(2022) = 15%. *)
Definition linha_capm_cenario : linha_capm :=
  {| base := {| Ano := 2022; Lucro_Liquido := flt 120; PL_Controlador := flt 1200;
                PL_Inicial := flt 1100; ROE := flt (120 # 1100) |};
     beta := flt 1.2; Rf := flt 0.05; Rm := flt 0.15;
     Ke := flt 0.17; spread_valor := flt (-67 # 1100) |}.

(** A year of positive income on an opening equity of zero. *)
Definition lucro_pl_zero : serie_anual := [(2020, flt 50); (2021, flt 100)].
Definition pl_zero : serie_anual := [(2020, flt 0); (2021, flt 1100)].

Definition cnpj_itau : string := "60.872.504/0001-23".
Definition cnpj_bradesco : string := "60.746.948/0001-12".

Definition reg (c : string) (a : Z) (conta descricao : string) (v : Q) : registro :=
  {| CNPJ_CIA := c; DT_REFER := dia a 12 31; ORDEM_EXERC := "ÚLTIMO";
     CD_CONTA := conta; DS_CONTA := descricao; VL_CONTA := flt v |}.

(** A balance sheet with total equity in both years and a non-controlling
    interest in 2021 only (values in thousands). *)
Definition bpp_minoritarios_2021 : list registro :=
  [ reg cnpj_itau 2020 "2.08" "Patrimônio Líquido Consolidado" 1000;
    reg cnpj_itau 2021 "2.08" "Patrimônio Líquido Consolidado" 1100;
    reg cnpj_itau 2021 "2.08.09" "Participação dos Acionistas Não Controladores" 50 ].

(** Two archives, 2010 and 2011, with two banks in each. *)
Definition dre_exemplo (a : Z) : list registro :=
  [ reg cnpj_itau a "3.11" "Lucro/Prejuízo Consolidado do Período" (100 + inject_Z (a - 2010) * 20);
    reg cnpj_bradesco a "3.11" "Lucro/Prejuízo Consolidado do Período" 90 ].

Definition bpp_exemplo (a : Z) : list registro :=
  [ reg cnpj_itau a "2.08" "Patrimônio Líquido Consolidado" 1000;
    reg cnpj_bradesco a "2.08" "Patrimônio Líquido Consolidado" 900 ].

Definition cvm_exemplo (a : Z) : option (list registro * list registro) :=
  if (a =? 2010) || (a =? 2011) then Some (dre_exemplo a, bpp_exemplo a) else None.

Definition bcb_exemplo (inicio fim : Z) : result (list (data * num)) :=
  if inicio =? 2010
  then Ok [ (dia 2011 1 3, flt 0.04); (dia 2011 1 4, flt 0.04) ]
  else Ok [].

Definition yf_ibov_exemplo (ano_ini ano_fim : Z) : result (list (data * num)) :=
  Ok [ (dia 2011 1 3, flt 100); (dia 2011 12 29, flt 115) ].

(** The first bank has a single month of paired returns, the others two. *)
Definition yf_retornos_exemplo (t : string) : result (list (num * num)) :=
  if String.eqb t "ITUB4.SA"
  then Ok [ (flt 0.02, flt 0.01) ]
  else Ok [ (flt 0.02, flt 0.01); (flt (-0.01), flt 0.03) ].

Definition msg_ols : string := "regression on fewer than 2 observations".

(** A regression that raises on fewer than two observations, and one that
    returns a slope whatever it is given. *)
Definition ols_que_levanta (ret : list (num * num)) : result num :=
  if (List.length ret <? 2)%nat then Raise (ErroExterno msg_ols) else Ok (flt 1.2).

Definition ols_que_devolve (ret : list (num * num)) : result num := Ok (flt 1.2).

Definition mundo_exemplo (regressao : list (num * num) -> result num) : Fontes :=
  {| cvm := cvm_exemplo; bcb := bcb_exemplo; yf_ibov := yf_ibov_exemplo;
     yf_retornos := yf_retornos_exemplo; ols := regressao |}.


(** What the loop of [main] receives in that run, and the tables of the first
    bank. *)
Definition dre_total_exemplo : list registro := dre_exemplo 2010 ++ dre_exemplo 2011.
Definition bpp_total_exemplo : list registro := bpp_exemplo 2010 ++ bpp_exemplo 2011.
Definition df_lucro_itau : serie_anual := [(2010, flt 100000); (2011, flt 120000)].
Definition df_pl_itau : serie_anual := [(2010, flt 1000000); (2011, flt 1000000)].


(** Archives that hold another company only. *)
Definition mundo_sem_bancos : Fontes :=
  {| cvm := fun a =>
       if a =? 2010
       then Some ([ reg "33.000.167/0001-01" a "3.11" "Lucro/Prejuízo do Período" 10 ],
                  [ reg "33.000.167/0001-01" a "2.08" "Patrimônio Líquido" 100 ])
       else None;
     bcb := bcb_exemplo; yf_ibov := yf_ibov_exemplo;
     yf_retornos := yf_retornos_exemplo; ols := ols_que_devolve |}.

(* ------------------------------------------------------------------ *)
(** ** 10. The workbook: worksheets, cells and the two table writers *)

(** What a cell holds: a Python int, a float or a str. *)
Inductive valor_celula : Type :=
  | VInt (z : Z)
  | VFloat (v : num)
  | VStr (s : string).

Inductive fonte_xl : Type := HEADER_FONT | TITLE_FONT.

(** An openpyxl cell, with the attributes the script touches: the value
    ([None] in a cell never written), the number format, the font, whether
    the fill is [HEADER_FILL] and whether the alignment is centred. *)
Record celula_xl : Type := {
  cel_valor : option valor_celula;
  cel_formato : string;
  cel_fonte : option fonte_xl;
  cel_fill : bool;
  cel_centro : bool
}.

Definition celula_nova : celula_xl :=
  {| cel_valor := None; cel_formato := "General"; cel_fonte := None;
     cel_fill := false; cel_centro := false |}.

(** A worksheet: its cells by row and column, and the widths set in
    [column_dimensions], by column number ([get_column_letter] numbers the
    columns A, B, ... from 1). *)
Record worksheet : Type := {
  celulas : Z -> Z -> celula_xl;
  larguras : Z -> option Z
}.

Definition ws_nova : worksheet :=
  {| celulas := fun _ _ => celula_nova; larguras := fun _ => None |}.

Definition alterar (ws : worksheet) (r c : Z) (f : celula_xl -> celula_xl) : worksheet :=
  {| celulas := fun r' c' => if (r' =? r) && (c' =? c)
                             then f (celulas ws r' c') else celulas ws r' c';
     larguras := larguras ws |}.

Definition por_largura (ws : worksheet) (c : Z) (w : Z) : worksheet :=
  {| celulas := celulas ws;
     larguras := fun c' => if c' =? c then Some w else larguras ws c' |}.

(** [ws.cell(r, c, value)] sets the value unless it is [None]. *)
Definition por_valor (v : option valor_celula) (x : celula_xl) : celula_xl :=
  match v with
  | Some _ => {| cel_valor := v; cel_formato := cel_formato x;
                 cel_fonte := cel_fonte x; cel_fill := cel_fill x;
                 cel_centro := cel_centro x |}
  | None => x
  end.

Definition por_formato (f : string) (x : celula_xl) : celula_xl :=
  {| cel_valor := cel_valor x; cel_formato := f; cel_fonte := cel_fonte x;
     cel_fill := cel_fill x; cel_centro := cel_centro x |}.

Definition por_fonte (f : fonte_xl) (x : celula_xl) : celula_xl :=
  {| cel_valor := cel_valor x; cel_formato := cel_formato x; cel_fonte := Some f;
     cel_fill := cel_fill x; cel_centro := cel_centro x |}.

Definition por_fill (x : celula_xl) : celula_xl :=
  {| cel_valor := cel_valor x; cel_formato := cel_formato x;
     cel_fonte := cel_fonte x; cel_fill := true; cel_centro := cel_centro x |}.

Definition por_centro (x : celula_xl) : celula_xl :=
  {| cel_valor := cel_valor x; cel_formato := cel_formato x;
     cel_fonte := cel_fonte x; cel_fill := cel_fill x; cel_centro := true |}.

(** [enumerate(l, inicio)]. *)
Fixpoint enumerar {A : Type} (inicio : Z) (l : list A) : list (Z * A) :=
  match l with
  | [] => []
  | x :: t => (inicio, x) :: enumerar (inicio + 1) t
  end.

Definition COL_PCTS : list string :=
  ["ROE"; "Rf"; "Rm"; "Ke"; "spread_valor"]%string.
Definition COL_BRL : list string :=
  ["Lucro_Liquido"; "PL_Controlador"; "PL_Inicial"]%string.

Definition pertence (s : string) (l : list string) : bool := existsb (String.eqb s) l.

Definition e_float (v : valor_celula) : bool :=
  match v with VFloat _ => true | _ => false end.

Definition e_int_ou_float (v : valor_celula) : bool :=
  match v with VStr _ => false | _ => true end.

(** A DataFrame written cell by cell: its column names and its rows, each row
    with one value per column. *)
Record quadro : Type := {
  colunas : list string;
  linhas_q : list (list valor_celula)
}.

Definition quadro_bem_formado (df : quadro) : Prop :=
  forall row, In row (linhas_q df) -> List.length row = List.length (colunas df).

(** The number format of a data cell of [_escrever_df]. *)
Definition formatar (col_name : string) (val : valor_celula) (x : celula_xl)
    : celula_xl :=
  if pertence col_name COL_PCTS && e_float val then por_formato "0.00%" x
  else if pertence col_name COL_BRL && e_int_ou_float val then por_formato "#,##0" x
  else x.

(** A Python string taken as a condition. *)
Definition verdadeiro (titulo : option string) : bool :=
  match titulo with
  | Some s => negb (String.eqb s EmptyString)
  | None => false
  end.

(** One row of the data loop of [_escrever_df]. *)
Definition escrever_linha (cols : list string) (ws : worksheet) (r : Z)
    (row : list valor_celula) : worksheet :=
  fold_left
    (fun ws cv =>
       alterar ws r (fst cv)
         (fun x => formatar (nth (Z.to_nat (fst cv - 1)) cols EmptyString) (snd cv)
                     (por_valor (Some (snd cv)) x)))
    (enumerar 1 row) ws.

(** Python's [len] of a str counts code points.  A string here is the UTF-8
    encoding of the text, so the bytes [10xxxxxx], which continue a code
    point, are not counted. *)
Fixpoint len (s : string) : nat :=
  match s with
  | EmptyString => 0%nat
  | String c s' =>
      let n := nat_of_ascii c in
      if ((128 <=? n) && (n <? 192))%nat then len s' else S (len s')
  end.

Definition _escrever_df (ws : worksheet) (df : quadro) (titulo : option string)
    : worksheet * (Z * Z) :=
  let row_offset := if verdadeiro titulo then 3 else 1 in
  let ws :=
    if verdadeiro titulo
    then alterar ws 1 1
           (fun x => por_fonte TITLE_FONT (por_valor (option_map VStr titulo) x))
    else ws in
  let cols := colunas df in
  let ws :=
    fold_left
      (fun ws ch =>
         alterar ws row_offset (fst ch)
           (fun x => por_centro (por_fonte HEADER_FONT
                                   (por_fill (por_valor (Some (VStr (snd ch))) x)))))
      (enumerar 1 cols) ws in
  let ws :=
    fold_left (fun ws rrow => escrever_linha cols ws (fst rrow) (snd rrow))
              (enumerar (row_offset + 1) (linhas_q df)) ws in
  let last_row := row_offset + Z.of_nat (List.length (linhas_q df)) in
  let ws :=
    fold_left
      (fun ws cc =>
         por_largura ws (fst cc)
           (Z.max (Z.of_nat (len (snd cc)) + 4) 14))
      (enumerar 1 cols) ws in
  (ws, (row_offset, last_row)).

(** The consolidated frame of [criar_excel] (lines 363-368): the rows of
    every table of [resultados], in the order of the dict, each with the
    bank's name in front. *)
Definition df_todos (resultados : dict (list linha_capm)) : list (string * linha_capm) :=
  flat_map (fun kv => map (fun r => (fst kv, r)) (snd kv)) resultados.

(** Lines 370-371. *)
Definition bancos_unicos (resultados : dict (list linha_capm)) : list string :=
  map nome (filter (fun b => match dict_get (nome b) resultados with
                             | Some _ => true
                             | None => false
                             end) BANCOS).

Definition anos_unicos (resultados : dict (list linha_capm)) : list Z :=
  chaves (map (fun br => Ano (base (snd br))) (df_todos resultados)).

(** The columns of the consolidated frame. *)
Definition colunas_todos : list string :=
  ["Banco"; "Ano"; "Lucro_Liquido"; "PL_Controlador"; "PL_Inicial"; "ROE"; "beta";
   "Rf"; "Rm"; "Ke"; "spread_valor"]%string.

(** [float(sub.values[0])] for a column of the consolidated frame: the float
    columns as they are, the integer column "Ano" converted, and the
    ValueError of [float] on a bank's name. *)
Definition campo_de (campo : string) (br : string * linha_capm) : result num :=
  let r := snd br in
  if String.eqb campo "ROE" then Ok (ROE (base r))
  else if String.eqb campo "Ke" then Ok (Ke r)
  else if String.eqb campo "spread_valor" then Ok (spread_valor r)
  else if String.eqb campo "Rf" then Ok (Rf r)
  else if String.eqb campo "Rm" then Ok (Rm r)
  else if String.eqb campo "beta" then Ok (beta r)
  else if String.eqb campo "Lucro_Liquido" then Ok (Lucro_Liquido (base r))
  else if String.eqb campo "PL_Controlador" then Ok (PL_Controlador (base r))
  else if String.eqb campo "PL_Inicial" then Ok (PL_Inicial (base r))
  else if String.eqb campo "Ano" then Ok (Fin (Q2Qc (inject_Z (Ano (base r)))))
  else Raise (ErroExterno "ValueError: could not convert string to float").

(** The value [_tabela_pivot] computes for one bank and one year: the field
    of the first row of that bank and year, [None] when there is none; a
    [campo] that is no column is a KeyError whatever the rows. *)
Definition valor_pivot (todos : list (string * linha_capm)) (campo : string)
    (banco_nome : string) (ano : Z) : result (option num) :=
  if negb (pertence campo colunas_todos) then Raise (KeyError campo)
  else
    match filter (fun br => String.eqb (fst br) banco_nome
                            && (Ano (base (snd br)) =? ano)) todos with
    | [] => Ok None
    | br :: _ => v <- campo_de campo br ;; Ok (Some v)
    end.

Definition linha_pivot (todos : list (string * linha_capm)) (campo : string)
    (bancos : list string) (ws : worksheet) (r : Z) (ano : Z) : result worksheet :=
  fold_left
    (fun acc cb =>
       ws <- acc ;;
       val <- valor_pivot todos campo (snd cb) ano ;;
       Ok (alterar ws r (fst cb)
             (fun x =>
                let x := por_valor (option_map VFloat val) x in
                match val with
                | Some _ => if pertence campo COL_PCTS
                            then por_formato "0.00%" x else x
                | None => x
                end)))
    (enumerar 2 bancos)
    (Ok (alterar ws r 1 (por_valor (Some (VInt ano))))).

Definition _tabela_pivot (todos : list (string * linha_capm)) (campo : string)
    (bancos : list string) (anos : list Z) (ws : worksheet) : result worksheet :=
  let ws := alterar ws 1 1
              (fun x => por_fill (por_fonte HEADER_FONT (por_valor (Some (VStr "Ano")) x))) in
  let ws :=
    fold_left
      (fun ws cb =>
         alterar ws 1 (fst cb)
           (fun x => por_fill (por_fonte HEADER_FONT
                                 (por_valor (Some (VStr (snd cb))) x))))
      (enumerar 2 bancos) ws in
  ws <- fold_left
          (fun acc ra => ws <- acc ;; linha_pivot todos campo bancos ws (fst ra) (snd ra))
          (enumerar 2 anos) (Ok ws) ;;
  Ok (fold_left (fun ws c => por_largura ws c 16)
                (map (fun i => 1 + Z.of_nat i) (seq 0 (List.length bancos + 1)))
                ws).

(** The element of [enumerate(l, inicio)] numbered [i], if any. *)
Definition item {A : Type} (l : list A) (inicio i : Z) : option A :=
  if i <? inicio then None else nth_error l (Z.to_nat (i - inicio)).

(** The table of one bank as [_escrever_df] receives it: the ten columns of
    [calcular_capm], the year as an int and the rest as floats. *)
Definition colunas_capm : list string :=
  ["Ano"; "Lucro_Liquido"; "PL_Controlador"; "PL_Inicial"; "ROE"; "beta";
   "Rf"; "Rm"; "Ke"; "spread_valor"]%string.

Definition valores_capm (r : linha_capm) : list valor_celula :=
  [ VInt (Ano (base r)); VFloat (Lucro_Liquido (base r));
    VFloat (PL_Controlador (base r)); VFloat (PL_Inicial (base r));
    VFloat (ROE (base r)); VFloat (beta r); VFloat (Rf r); VFloat (Rm r);
    VFloat (Ke r); VFloat (spread_valor r) ].

Definition quadro_capm (df : list linha_capm) : quadro :=
  {| colunas := colunas_capm; linhas_q := map valores_capm df |}.

(** [cols.index(nome)], [None] for the ValueError of a missing name. *)
Fixpoint indice (nome : string) (cols : list string) : option Z :=
  match cols with
  | [] => None
  | c :: resto =>
      if String.eqb c nome then Some 0
      else option_map Z.succ (indice nome resto)
  end.

(** [campo] names a column of the consolidated frame that [float] accepts:
    any column but "Banco". *)
Definition campo_numerico (campo : string) : bool :=
  pertence campo colunas_todos && negb (String.eqb campo "Banco").

(** The rows of the consolidated frame of one bank and one year. *)
Definition linhas_de (todos : list (string * linha_capm)) (b : string) (a : Z)
    : list (string * linha_capm) :=
  filter (fun br => String.eqb (fst br) b && (Ano (base (snd br)) =? a)) todos.

(* ------------------------------------------------------------------ *)
(** ** Vocabulary of the statements *)

(** The archive of a year could be downloaded. *)
Definition disponivel (fonte : Z -> option (list registro * list registro))
    (a : Z) : bool :=
  match fonte a with Some _ => true | None => false end.

(** The rows [extrair_lucro] keeps for a company: its own, of the net
    income/loss account, from the last (not the restated) exercise. *)
Definition registro_de_lucro (c : string) (r : registro) : bool :=
  String.eqb (CNPJ_CIA r) c
  && (contem_sem_caixa "Lucro/Prejuízo" (DS_CONTA r)
      && String.eqb (ORDEM_EXERC r) "ÚLTIMO").

(** The rows [extrair_pl] keeps for a company. *)
Definition registro_de_pl (c : string) (r : registro) : bool :=
  String.eqb (CNPJ_CIA r) c
  && ((String.eqb (CD_CONTA r) conta_pl_total
       || String.eqb (CD_CONTA r) conta_nao_controladores)
      && String.eqb (ORDEM_EXERC r) "ÚLTIMO").

(** The frame [extrair_pl] pivots: year, account and value of the rows kept. *)
Definition linhas_pl (c : string) (bpp : list registro) : list (Z * (string * num)) :=
  map (fun r => (ano_de (DT_REFER r), (CD_CONTA r, (VL_CONTA r * flt 1000)%num)))
      (filter (registro_de_pl c) bpp).

(** The rows [extrair_pl] keeps for a company, a year and an account. *)
Definition registros_pl (c conta : string) (a : Z) (bpp : list registro)
    : list registro :=
  filter (fun r => registro_de_pl c r
                   && ((ano_de (DT_REFER r) =? a) && String.eqb (CD_CONTA r) conta))
         bpp.

(** A table has a row for the year. *)
Definition tem_ano (t : serie_anual) (a : Z) : bool :=
  match buscar a t with Some _ => true | None => false end.

(** A balance sheet with both accounts in both years. *)
Definition bpp_completo : list registro :=
  [ reg cnpj_itau 2020 "2.08" "Patrimônio Líquido Consolidado" 1000;
    reg cnpj_itau 2020 "2.08.09" "Participação dos Acionistas Não Controladores" 40;
    reg cnpj_itau 2021 "2.08" "Patrimônio Líquido Consolidado" 1100;
    reg cnpj_itau 2021 "2.08.09" "Participação dos Acionistas Não Controladores" 50 ].

(** The bank has a ROE table with rows: both extractions return and
    [calcular_roe] keeps some row. *)
Definition banco_com_roe (dre bpp : list registro) (b : banco) : Prop :=
  exists df_lucro df_pl,
    extrair_lucro dre (cnpj b) = Ok df_lucro
    /\ extrair_pl bpp (cnpj b) = Ok df_pl
    /\ calcular_roe df_lucro df_pl <> [].

(** A small frame with a name, a year and a rate, and a sheet that already
    holds a note in its cell A1. *)
Definition quadro_exemplo : quadro :=
  {| colunas := ["Banco"; "Ano"; "ROE"]%string;
     linhas_q := [ [VStr "Bradesco"; VInt 2021; VFloat (flt 0.1)];
                   [VStr "Bradesco"; VInt 2022; VFloat (flt 0.12)] ] |}.

Definition ws_com_nota : worksheet :=
  alterar ws_nova 1 1 (por_valor (Some (VStr "rascunho"))).

(** The table of one bank as a sheet would show it. *)
Definition tabela_exemplo : list linha_capm := [ linha_capm_cenario ].

(** An archive of 2010 that holds neither table. *)
Definition mundo_sem_tabelas : Fontes :=
  {| cvm := fun a => if a =? 2010 then Some ([], []) else None;
     bcb := bcb_exemplo; yf_ibov := yf_ibov_exemplo;
     yf_retornos := yf_retornos_exemplo; ols := ols_que_devolve |}.

(** The value of a cell of the pivot for a numeric column. *)
Definition valor_numerico (todos : list (string * linha_capm)) (campo b : string)
    (a : Z) : option num :=
  match linhas_de todos b a with
  | [] => None
  | br :: _ => match campo_de campo br with Ok v => Some v | Raise _ => None end
  end.

(** What [_tabela_pivot] does to the cell of a bank and a year, given the
    value computed for it. *)
Definition cel_pivot (campo : string) (val : option num) (x : celula_xl) : celula_xl :=
  let x := por_valor (option_map VFloat val) x in
  match val with
  | Some _ => if pertence campo COL_PCTS then por_formato "0.00%" x else x
  | None => x
  end.

(** A row of the pivot for a numeric column, where no value raises. *)
Definition linha_pivot_numerica (todos : list (string * linha_capm)) (campo : string)
    (bancos : list string) (ws : worksheet) (r : Z) (ano : Z) : worksheet :=
  fold_left
    (fun ws cb =>
       alterar ws r (fst cb) (cel_pivot campo (valor_numerico todos campo (snd cb) ano)))
    (enumerar 2 bancos)
    (alterar ws r 1 (por_valor (Some (VInt ano)))).

(** A consolidated frame of two banks and two years; the second bank has no
    row for 2021. *)
Definition todos_exemplo : list (string * linha_capm) :=
  [ ("Bradesco"%string,
     {| base := {| Ano := 2021; Lucro_Liquido := flt 90; PL_Controlador := flt 900;
                   PL_Inicial := flt 900; ROE := flt 0.1 |};
        beta := flt 1; Rf := flt 0.05; Rm := flt 0.1; Ke := flt 0.1;
        spread_valor := flt 0 |});
    ("Bradesco"%string, linha_capm_cenario);
    ("Santander BR"%string, linha_capm_cenario) ].

(** The dict of a run with two banks; the second has no row for 2021. *)
Definition resultados_exemplo : dict (list linha_capm) :=
  [ ("Bradesco"%string, map snd (firstn 2 todos_exemplo));
    ("Santander BR"%string, [ linha_capm_cenario ]) ].



(** A series whose year 2020 has one observed quotation, of zero. *)
Definition ibov_preco_zero : list (data * num) :=
  [ (dia 2019 12 30, flt 115); (dia 2020 3 2, NaN); (dia 2020 3 3, flt 0);
    (dia 2021 1 4, flt 119) ].






(* ================================================================== *)
(** * Properties *)

(* ------------------------------------------------------------------ *)
(** ** Arithmetic of [num] *)

(** Equality of canonical rationals is decided on their fractions; closed
    goals between values, rows and tables are settled by evaluation. *)
Ltac avaliar :=
  unfold flt;
  repeat first
    [ reflexivity
    | apply Qc_is_canon; vm_compute; reflexivity
    | f_equal ].



Lemma isna_notna (v : num) : notna v = true <-> isna v = false.
Proof. unfold notna; destruct (isna v); simpl; intuition congruence. Qed.

Lemma In_inserir (k x : Z) (l : list Z) :
  In x (inserir k l) <-> x = k \/ In x l.
Proof.
  induction l as [| y l IH]; cbn.
  - intuition.
  - destruct (Z.ltb_spec k y); [cbn; intuition|].
    destruct (Z.eqb_spec k y); cbn; [subst; intuition|].
    rewrite IH. intuition.
Qed.

Lemma In_chaves (x : Z) (l : list Z) : In x (chaves l) <-> In x l.
Proof.
  induction l as [| y l IH]; cbn; [tauto|].
  rewrite In_inserir, IH. intuition.
Qed.

Lemma inserir_ordenada (k : Z) (l : list Z) :
  StronglySorted Z.lt l -> StronglySorted Z.lt (inserir k l).
Proof.
  induction 1 as [| y l Hl IH Hy]; cbn.
  - repeat constructor.
  - destruct (Z.ltb_spec k y) as [Hlt | Hge].
    + constructor; [now constructor|].
      constructor; [exact Hlt|].
      rewrite Forall_forall in Hy |- *. intros z Hz. specialize (Hy z Hz). lia.
    + destruct (Z.eqb_spec k y) as [-> | Hne]; [now constructor|].
      constructor; [exact IH|].
      rewrite Forall_forall in Hy |- *. intros z Hz.
      apply In_inserir in Hz. destruct Hz as [-> | Hz]; [lia | now apply Hy].
Qed.

(** The keys of a [groupby] come out ascending, each once. *)
Lemma chaves_ordenada (l : list Z) : StronglySorted Z.lt (chaves l).
Proof.
  induction l as [| y l IH]; cbn; [constructor | now apply inserir_ordenada].
Qed.



Lemma buscar_map (f : Z -> num) (a : Z) (ks : list Z) :
  In a ks -> buscar a (map (fun k => (k, f k)) ks) = Some (f a).
Proof.
  induction ks as [| k ks IH]; cbn; [tauto|].
  intros H. destruct (Z.eqb_spec k a) as [-> | Hne]; [reflexivity|].
  destruct H as [E | H]; [contradiction | now apply IH].
Qed.

Lemma agrupar_map {A : Type} (chave : A -> Z) (f : list A -> num) (l : list A) :
  map (fun g => (fst g, f (snd g))) (agrupar chave l)
  = map (fun k => (k, f (filter (fun x => chave x =? k) l))) (chaves (map chave l)).
Proof. unfold agrupar. now rewrite map_map. Qed.

Lemma ano_presente {A : Type} (chave : A -> Z) (a : Z) (l : list A) :
  filter (fun x => chave x =? a) l <> [] -> In a (chaves (map chave l)).
Proof.
  intros H. apply In_chaves, in_map_iff.
  destruct (filter (fun x => chave x =? a) l) as [| x g] eqn:E; [contradiction|].
  assert (Hx : In x (filter (fun x => chave x =? a) l)) by (rewrite E; now left).
  apply filter_In in Hx. destruct Hx as [Hx Hk].
  exists x. split; [now apply Z.eqb_eq | exact Hx].
Qed.

(* ------------------------------------------------------------------ *)
(** ** SELIC: the annual rate of a year of constant daily rate *)

(** The table has one row per year of the input, in ascending order. *)
Lemma anualizar_selic_anos (todos : list (data * num)) :
  map fst (anualizar_selic todos) = chaves (map (fun p => ano_de (fst p)) todos).
Proof.
  unfold anualizar_selic, agrupar. rewrite !map_map. cbn. apply map_id.
Qed.







(* ------------------------------------------------------------------ *)
(** ** IBOV: the annual return reads the first and the last price only *)

Lemma anualizar_ibov_forma (ibov : list (data * num)) :
  anualizar_ibov ibov
  = map (fun k => (k, (ultimo_valido (precos_do_ano k ibov)
                       / primeiro_valido (precos_do_ano k ibov) - flt 1)%num))
        (chaves (map (fun p => ano_de (fst p)) ibov)).
Proof. unfold anualizar_ibov, agrupar. now rewrite map_map. Qed.









(** C10, amended.  A year whose group holds exactly one observed price keeps
    its row.  When that price is a finite quotation other than zero the annual
    return is 0: the price is both the first and the last of its year.  When it
    is zero or infinite the quotient is undefined and the return is NaN. *)
Theorem ibov_ano_de_um_preco (ibov : list (data * num)) (Y : Z) (v : num) :
  filter notna (precos_do_ano Y ibov) = [v] ->
  buscar Y (anualizar_ibov ibov) = Some (v / v - flt 1)%num
  /\ (forall p, v = Fin p -> p <> 0%Qc -> buscar Y (anualizar_ibov ibov) = Some (flt 0))
  /\ (v = flt 0 \/ v = PInf \/ v = NInf -> buscar Y (anualizar_ibov ibov) = Some NaN).
Proof.
  intros Hum.
  assert (H : buscar Y (anualizar_ibov ibov) = Some (v / v - flt 1)%num).
  { rewrite anualizar_ibov_forma.
    rewrite (buscar_map
               (fun k => (ultimo_valido (precos_do_ano k ibov)
                          / primeiro_valido (precos_do_ano k ibov) - flt 1)%num)).
    - unfold ultimo_valido, primeiro_valido. rewrite Hum. reflexivity.
    - apply ano_presente. intros E.
      unfold precos_do_ano in Hum. rewrite E in Hum. discriminate Hum. }
  split; [exact H|]. rewrite H. split.
  - intros p -> Hp. f_equal. cbn.
    destruct (Qc_eq_dec p 0) as [E | _]; [contradiction|].
    unfold flt. cbn. f_equal. change (Q2Qc 1) with 1%Qc. change (Q2Qc 0) with 0%Qc.
    field. exact Hp.
  - intros [-> | [-> | ->]]; reflexivity.
Qed.

Lemma ibov_ano_de_um_preco_witness :
  buscar 2020
    (anualizar_ibov [ (dia 2019 12 30, flt 115); (dia 2020 3 2, NaN);
                      (dia 2020 3 3, flt 98.5); (dia 2021 1 4, flt 119) ])
  = Some (flt 0).
Proof.
  destruct (ibov_ano_de_um_preco
              [ (dia 2019 12 30, flt 115); (dia 2020 3 2, NaN);
                (dia 2020 3 3, flt 98.5); (dia 2021 1 4, flt 119) ]
              2020 (flt 98.5) eq_refl) as [_ [H _]].
  apply (H (Q2Qc 98.5)); [reflexivity | discriminate].
Defined.

(** C10, as stated, fails: the year 2020 of this series has exactly one
    observed price, the quotation 0, and its annual return is NaN. *)
Lemma ibov_ano_de_um_preco_zero :
  filter notna (precos_do_ano 2020 ibov_preco_zero) = [flt 0]
  /\ buscar 2020 (anualizar_ibov ibov_preco_zero) = Some NaN.
Proof. split; reflexivity. Qed.

(* ------------------------------------------------------------------ *)
(** ** CAPM: cost of equity and spread of every output row *)



(* ------------------------------------------------------------------ *)
(** ** ROE: what [dropna] removes and what it keeps *)

Lemma roe_antes_dropna_ROE (df_lucro df_pl : serie_anual) (r : linha_roe) :
  In r (roe_antes_dropna df_lucro df_pl) ->
  ROE r = (Lucro_Liquido r / PL_Inicial r)%num.
Proof.
  unfold roe_antes_dropna. intros H.
  apply in_map_iff in H. destruct H as [[[a [lucro pl]] ini] [<- _]].
  reflexivity.
Qed.

(** C6, amended.  The rows of the ROE table are exactly the rows of the merged
    frame in which no column is NaN: a row whose equity at the start is
    missing, or whose division gives NaN, is dropped, and no other row is.
    An infinite ROE is not NaN and stays. *)
Theorem calcular_roe_descarta_nan (df_lucro df_pl : serie_anual) (r : linha_roe) :
  In r (calcular_roe df_lucro df_pl) <->
  In r (roe_antes_dropna df_lucro df_pl)
  /\ isna (Lucro_Liquido r) = false /\ isna (PL_Controlador r) = false
  /\ isna (PL_Inicial r) = false /\ isna (ROE r) = false.
Proof.
  unfold calcular_roe. rewrite filter_In. unfold linha_completa.
  rewrite !andb_true_iff, !isna_notna. tauto.
Qed.

(** C6, as stated, fails: positive income over an opening equity of zero gives
    an infinite ROE, and the row is in the table. *)
Lemma calcular_roe_mantem_infinito :
  calcular_roe lucro_pl_zero pl_zero
  = [ {| Ano := 2021; Lucro_Liquido := flt 100; PL_Controlador := flt 1100;
         PL_Inicial := flt 0; ROE := PInf |} ].
Proof. vm_compute. avaliar. Qed.

(** C1 on a table with a missing year.  The equity "at the start" of 2022 is
    the equity of the row above, the year 2020; the table has no equity for
    2021, and 2022 is in the output all the same. *)
Theorem calcular_roe_lacuna :
  calcular_roe lucro_com_lacuna pl_com_lacuna
  = [ {| Ano := 2022; Lucro_Liquido := flt 120; PL_Controlador := flt 1200;
         PL_Inicial := flt 1000; ROE := flt 0.12 |} ]
  /\ buscar 2021 pl_com_lacuna = None
  /\ buscar 2020 pl_com_lacuna = Some (flt 1000).
Proof. repeat split; vm_compute; avaliar. Qed.

(** C2 on the code.  The ROE stage of the scenario has the row of 2022 only
    (the merge leaves the equity of 2020 out before the shift, so 2021 is the
    first row and is dropped); the valuation of that row is Ke = 17% and
    spread = 120/1100 - 17/100. *)
Theorem cenario_ponta_a_ponta :
  calcular_roe lucro_cenario pl_cenario = [ base linha_capm_cenario ]
  /\ calcular_capm (calcular_roe lucro_cenario pl_cenario)
       [(2022, flt 0.05)] [(2022, flt 0.15)] (flt 1.2)
     = [ linha_capm_cenario ]
  /\ ROE (base linha_capm_cenario) = flt (120 # 1100)
  /\ Ke linha_capm_cenario = flt 0.17
  /\ spread_valor linha_capm_cenario = flt (-67 # 1100).
Proof. repeat split; vm_compute; avaliar. Qed.

(* ------------------------------------------------------------------ *)
(** ** Controlling equity *)

(** C4 on the code.  Total equity in 2020 and 2021, a non-controlling interest
    in 2021 only: the pivot has the column, its cell of 2020 is NaN, and the
    controlling equity of 2020 is NaN instead of the total.  With no
    non-controlling interest in any year the column is absent and the default
    of zero applies. *)
Theorem extrair_pl_minoritarios_em_um_ano :
  extrair_pl bpp_minoritarios_2021 cnpj_itau
  = Ok [(2020, NaN); (2021, flt 1050000)]
  /\ extrair_pl (firstn 2 bpp_minoritarios_2021) cnpj_itau
     = Ok [(2020, flt 1000000); (2021, flt 1100000)].
Proof. split; vm_compute; avaliar. Qed.

(* ------------------------------------------------------------------ *)
(** ** The run: what ends it and what is skipped *)




(** One turn of the loop, case by case. *)
Lemma laco_bancos_passo (w : Fontes) (dre bpp : list registro)
    (selic ibov : serie_anual) (b : banco) (resto : list banco)
    (res : dict (list linha_capm)) (df_lucro df_pl : serie_anual) :
  extrair_lucro dre (cnpj b) = Ok df_lucro ->
  extrair_pl bpp (cnpj b) = Ok df_pl ->
  laco_bancos w dre bpp selic ibov (b :: resto) res
  = match calcular_roe df_lucro df_pl with
    | [] => laco_bancos w dre bpp selic ibov resto res
    | df_roe =>
        match calcular_beta w (ticker b) with
        | Raise e => Raise e
        | Ok bt =>
            laco_bancos w dre bpp selic ibov resto
              (dict_set (nome b) (calcular_capm df_roe selic ibov bt) res)
        end
    end.
Proof.
  intros Hl Hp. cbn [laco_bancos]. unfold processar_banco.
  rewrite Hl, Hp. cbn [bind].
  destruct (calcular_roe df_lucro df_pl) as [| r df_roe]; [reflexivity|].
  destruct (calcular_beta w (ticker b)) as [bt | e]; reflexivity.
Qed.


Lemma extrair_pl_devolve (bpp : list registro) (c : string) :
  bpp <> [] -> exists t, extrair_pl bpp c = Ok t.
Proof. intros H. destruct bpp; [contradiction | eexists; reflexivity]. Qed.





(** C5, amended.  The loop skips a bank exactly when its ROE table is empty.
    For a bank with ROE rows the monthly returns go to the regression whatever
    their number: if the regression raises, the exception leaves the loop and
    no later bank is processed; if it returns a slope, the bank is valued with
    it and the loop goes on. *)
Theorem beta_sem_guarda (w : Fontes) (dre bpp : list registro)
    (selic ibov : serie_anual) (b : banco) (resto : list banco)
    (res : dict (list linha_capm)) (df_lucro df_pl : serie_anual)
    (ret : list (num * num)) :
  extrair_lucro dre (cnpj b) = Ok df_lucro ->
  extrair_pl bpp (cnpj b) = Ok df_pl ->
  yf_retornos w (ticker b) = Ok ret ->
  (calcular_roe df_lucro df_pl = [] ->
   laco_bancos w dre bpp selic ibov (b :: resto) res
   = laco_bancos w dre bpp selic ibov resto res)
  /\ (calcular_roe df_lucro df_pl <> [] ->
      (forall e, ols w ret = Raise e ->
         laco_bancos w dre bpp selic ibov (b :: resto) res = Raise e)
      /\ (forall bt, ols w ret = Ok bt ->
            laco_bancos w dre bpp selic ibov (b :: resto) res
            = laco_bancos w dre bpp selic ibov resto
                (dict_set (nome b)
                   (calcular_capm (calcular_roe df_lucro df_pl) selic ibov bt) res))).
Proof.
  intros Hl Hp Hr.
  rewrite (laco_bancos_passo w dre bpp selic ibov b resto res df_lucro df_pl Hl Hp).
  unfold calcular_beta. rewrite Hr. cbn [bind].
  split.
  - now intros ->.
  - intros Hne. destruct (calcular_roe df_lucro df_pl) as [| r df_roe];
      [contradiction|].
    split; [intros e -> | intros bt ->]; reflexivity.
Qed.

Lemma beta_sem_guarda_witness :
  (calcular_roe df_lucro_itau df_pl_itau = [] ->
   laco_bancos (mundo_exemplo ols_que_levanta) dre_total_exemplo bpp_total_exemplo
     [] [] BANCOS []
   = laco_bancos (mundo_exemplo ols_que_levanta) dre_total_exemplo bpp_total_exemplo
       [] [] (tl BANCOS) [])
  /\ (calcular_roe df_lucro_itau df_pl_itau <> [] ->
      (forall e, ols_que_levanta [ (flt 0.02, flt 0.01) ] = Raise e ->
         laco_bancos (mundo_exemplo ols_que_levanta) dre_total_exemplo
           bpp_total_exemplo [] [] BANCOS [] = Raise e)
      /\ (forall bt, ols_que_levanta [ (flt 0.02, flt 0.01) ] = Ok bt ->
            laco_bancos (mundo_exemplo ols_que_levanta) dre_total_exemplo
              bpp_total_exemplo [] [] BANCOS []
            = laco_bancos (mundo_exemplo ols_que_levanta) dre_total_exemplo
                bpp_total_exemplo [] [] (tl BANCOS)
                (dict_set "Itaú Unibanco"
                   (calcular_capm (calcular_roe df_lucro_itau df_pl_itau) [] [] bt)
                   []))).
Proof.
  apply (beta_sem_guarda (mundo_exemplo ols_que_levanta) dre_total_exemplo
           bpp_total_exemplo [] []
           {| nome := "Itaú Unibanco"; ticker := "ITUB4.SA"; cnpj := cnpj_itau |}
           (tl BANCOS) [] df_lucro_itau df_pl_itau [ (flt 0.02, flt 0.01) ]).
  - vm_compute. avaliar.
  - vm_compute. avaliar.
  - reflexivity.
Defined.

(** C5, as stated, fails.  The first bank has ROE rows and a single month of
    paired returns.  With a regression that raises on it the run ends in that
    exception, and the second bank is not reached; with a regression that
    returns a slope the first bank is in [resultados] with a valuation row.
    In neither run is the bank skipped. *)
Lemma banco_de_um_mes_nao_e_pulado :
  yf_retornos_exemplo "ITUB4.SA" = Ok [ (flt 0.02, flt 0.01) ]
  /\ main (mundo_exemplo ols_que_levanta) = Excecao (ErroExterno msg_ols)
  /\ exists res df,
       main (mundo_exemplo ols_que_devolve) = Planilha res
       /\ dict_get "Itaú Unibanco" res = Some df
       /\ List.length df = 1%nat.
Proof.
  split; [reflexivity|]. split; [vm_compute; reflexivity|].
  exists (match main (mundo_exemplo ols_que_devolve) with
          | Planilha res => res
          | _ => []
          end).
  exists (match main (mundo_exemplo ols_que_devolve) with
          | Planilha ((_, df) :: _) => df
          | _ => []
          end).
  repeat split; vm_compute; reflexivity.
Qed.

(* ------------------------------------------------------------------ *)
(** ** The two annualizers inside their download functions *)

Lemma baixar_selic_anualiza (fonte : Z -> Z -> result (list (data * num)))
    (ano_ini ano_fim : Z) (p : data * num) (todos : list (data * num)) :
  baixar_blocos fonte (blocos ano_ini ano_fim) = Ok (p :: todos) ->
  baixar_selic fonte ano_ini ano_fim = Ok (anualizar_selic (p :: todos)).
Proof. unfold baixar_selic. now intros ->. Qed.

Lemma baixar_ibov_anualiza (yf : Z -> Z -> result (list (data * num)))
    (ano_ini ano_fim : Z) (ibov : list (data * num)) :
  yf ano_ini ano_fim = Ok ibov ->
  baixar_ibov_anual yf ano_ini ano_fim = Ok (anualizar_ibov ibov).
Proof. unfold baixar_ibov_anual. now intros ->. Qed.

(* ------------------------------------------------------------------ *)
(** ** ROE on tables of consecutive years *)

Lemma roe_antes_dropna_linhas (df_lucro df_pl : serie_anual) :
  roe_antes_dropna df_lucro df_pl = linhas_roe NaN (merge_ano df_lucro df_pl).
Proof.
  unfold roe_antes_dropna, shift.
  generalize (merge_ano df_lucro df_pl) as df. intros df.
  rewrite length_map, <- combine_firstn_l.
  generalize NaN as ant.
  induction df as [| [a [lucro pl]] df IH]; intros ant; [reflexivity|].
  cbn. f_equal. apply IH.
Qed.

Lemma buscar_ausente (k : Z) (t : serie_anual) :
  ~ In k (map fst t) -> filter (fun r => fst r =? k) t = [].
Proof.
  induction t as [| [k' v'] t IH]; cbn; [reflexivity|].
  intros H. destruct (Z.eqb_spec k' k) as [-> | _]; [exfalso; auto|].
  apply IH. auto.
Qed.

Lemma filter_ano_unico (k : Z) (v : num) (t : serie_anual) :
  NoDup (map fst t) -> In (k, v) t ->
  filter (fun r => fst r =? k) t = [(k, v)] /\ buscar k t = Some v.
Proof.
  induction t as [| [k' v'] t IH]; cbn; [tauto|].
  intros Hnd Hin. inversion Hnd as [| ? ? Hk' Hnd']; subst.
  destruct (Z.eqb_spec k' k) as [-> | Hne].
  - destruct Hin as [E | Hin].
    + injection E as ->. now rewrite (buscar_ausente k t Hk').
    + exfalso. apply Hk'. apply in_map_iff. now exists (k, v).
  - destruct Hin as [E | Hin]; [congruence|]. now apply IH.
Qed.

Lemma merge_ano_chaves (l p : serie_anual) :
  NoDup (map fst p) ->
  (forall x, In x l -> In (fst x) (map fst p)) ->
  merge_ano l p = map (fun x => (fst x, (snd x, valor_em p (fst x)))) l.
Proof.
  intros Hnd. unfold merge_ano.
  induction l as [| x l IH]; intros Hin; [reflexivity|].
  cbn [flat_map map]. rewrite IH by (intros y Hy; apply Hin; now right).
  destruct (proj1 (in_map_iff _ _ _) (Hin x (or_introl eq_refl))) as [[k v] [Ek Hkv]].
  cbn in Ek. subst k.
  destruct (filter_ano_unico (fst x) v p Hnd Hkv) as [-> Hb].
  unfold valor_em. rewrite Hb. reflexivity.
Qed.

Lemma range_S (a : Z) (n : nat) :
  range a (a + Z.of_nat (S n)) = a :: range (a + 1) (a + 1 + Z.of_nat n).
Proof.
  unfold range.
  replace (a + Z.of_nat (S n) - a) with (Z.of_nat (S n)) by lia.
  replace (a + 1 + Z.of_nat n - (a + 1)) with (Z.of_nat n) by lia.
  rewrite !Nat2Z.id. cbn [seq map]. f_equal; [lia|].
  rewrite <- seq_shift, map_map. apply map_ext. intros i. lia.
Qed.

Lemma range_NoDup (a b : Z) : NoDup (range a b).
Proof.
  unfold range. apply Injective_map_NoDup_in; [|apply seq_NoDup].
  intros x y _ _ H. lia.
Qed.

Lemma linhas_roe_consecutivas (p : serie_anual) (n : nat) :
  forall (a : Z) (ant : num) (l : serie_anual) (r : linha_roe),
  map fst l = range a (a + Z.of_nat n) ->
  In r (linhas_roe ant (map (fun x => (fst x, (snd x, valor_em p (fst x)))) l)) ->
  In (Ano r, Lucro_Liquido r) l
  /\ ROE r = (Lucro_Liquido r / PL_Inicial r)%num
  /\ (Ano r = a /\ PL_Inicial r = ant
      \/ a < Ano r /\ PL_Inicial r = valor_em p (Ano r - 1)).
Proof.
  induction n as [| n IH]; intros a ant l r Hl Hr.
  - replace (a + Z.of_nat 0) with a in Hl by lia.
    unfold range in Hl. rewrite Z.sub_diag in Hl. cbn in Hl.
    apply map_eq_nil in Hl. subst l. contradiction.
  - rewrite range_S in Hl. destruct l as [| [k v] l]; [discriminate Hl|].
    cbn in Hl. injection Hl as -> Hl. cbn in Hr.
    destruct Hr as [<- | Hr].
    + cbn. repeat split; auto.
    + destruct (IH (a + 1) (valor_em p a) l r Hl Hr) as [H1 [H2 H3]].
      repeat split; [now right | exact H2 |].
      right. destruct H3 as [[E ->] | [Hlt ->]].
      * split; [lia|]. f_equal. lia.
      * split; [lia | reflexivity].
Qed.

(** When the income table and the equity table hold the same run of
    consecutive years, every row of the ROE table divides the income of its
    year by the equity of exactly the year before, and the first year of the
    run is not in the table. *)
Theorem calcular_roe_anos_consecutivos (a : Z) (n : nat)
    (df_lucro df_pl : serie_anual) (r : linha_roe) :
  map fst df_lucro = range a (a + Z.of_nat n) ->
  map fst df_pl = range a (a + Z.of_nat n) ->
  In r (calcular_roe df_lucro df_pl) ->
  a < Ano r
  /\ buscar (Ano r) df_lucro = Some (Lucro_Liquido r)
  /\ buscar (Ano r - 1) df_pl = Some (PL_Inicial r)
  /\ ROE r = (Lucro_Liquido r / PL_Inicial r)%num.
Proof.
  intros Hl Hp Hr.
  unfold calcular_roe in Hr. apply filter_In in Hr. destruct Hr as [Hr Hc].
  assert (Hini : isna (PL_Inicial r) = false).
  { unfold linha_completa in Hc. rewrite !andb_true_iff in Hc.
    apply isna_notna. tauto. }
  rewrite roe_antes_dropna_linhas in Hr.
  assert (Hndp : NoDup (map fst df_pl)) by (rewrite Hp; apply range_NoDup).
  assert (Hndl : NoDup (map fst df_lucro)) by (rewrite Hl; apply range_NoDup).
  rewrite (merge_ano_chaves df_lucro df_pl Hndp) in Hr.
  2:{ intros x Hx. rewrite Hp, <- Hl. now apply in_map. }
  destruct (linhas_roe_consecutivas df_pl n a NaN df_lucro r Hl Hr)
    as [H1 [H2 [[_ E] | [Hlt E]]]].
  - rewrite E in Hini. discriminate Hini.
  - repeat split; [exact Hlt | | | exact H2].
    + now destruct (filter_ano_unico _ _ _ Hndl H1).
    + rewrite E in Hini |- *. unfold valor_em in *.
      destruct (buscar (Ano r - 1) df_pl); [reflexivity | discriminate Hini].
Qed.

Lemma calcular_roe_anos_consecutivos_witness :
  2020 < Ano (base linha_capm_cenario)
  /\ buscar (Ano (base linha_capm_cenario)) ((2020, flt 90) :: lucro_cenario)
     = Some (Lucro_Liquido (base linha_capm_cenario))
  /\ buscar (Ano (base linha_capm_cenario) - 1) pl_cenario
     = Some (PL_Inicial (base linha_capm_cenario))
  /\ ROE (base linha_capm_cenario)
     = (Lucro_Liquido (base linha_capm_cenario)
        / PL_Inicial (base linha_capm_cenario))%num.
Proof.
  apply (calcular_roe_anos_consecutivos 2020 3 ((2020, flt 90) :: lucro_cenario)
           pl_cenario).
  - reflexivity.
  - reflexivity.
  - right. left. vm_compute. avaliar.
Defined.

(* ------------------------------------------------------------------ *)
(** ** Shape of the annual tables *)

(** The SELIC table has one row for each year of the input and no other, in
    ascending order of year. *)
Theorem anualizar_selic_um_por_ano (todos : list (data * num)) :
  StronglySorted Z.lt (map fst (anualizar_selic todos))
  /\ forall a, In a (map fst (anualizar_selic todos))
               <-> In a (map (fun p => ano_de (fst p)) todos).
Proof.
  rewrite anualizar_selic_anos. split; [apply chaves_ordenada|].
  intros a. apply In_chaves.
Qed.

(** So has the IBOV table. *)
Theorem anualizar_ibov_um_por_ano (ibov : list (data * num)) :
  StronglySorted Z.lt (map fst (anualizar_ibov ibov))
  /\ forall a, In a (map fst (anualizar_ibov ibov))
               <-> In a (map (fun p => ano_de (fst p)) ibov).
Proof.
  rewrite anualizar_ibov_forma, map_map. cbn. rewrite map_id.
  split; [apply chaves_ordenada|]. intros a. apply In_chaves.
Qed.

(* ------------------------------------------------------------------ *)
(** ** A bank without disclosure rows *)

Lemma filter_vazio {A : Type} (f : A -> bool) (l : list A) :
  (forall x, In x l -> f x = false) -> filter f l = [].
Proof.
  induction l as [| x l IH]; intros H; cbn; [reflexivity|].
  rewrite (H x (or_introl eq_refl)). apply IH. intros y Hy. apply H. now right.
Qed.

(** A bank that no record of the DRE total names has no income table and no
    ROE row.  When both totals have rows its turn of the loop raises nothing
    and leaves [resultados] as it was; when one of the totals is the empty
    frame its turn raises KeyError('CNPJ_CIA') and the loop ends. *)
Theorem banco_sem_registros_e_pulado (w : Fontes) (dre bpp : list registro)
    (selic ibov : serie_anual) (b : banco) (resto : list banco)
    (res : dict (list linha_capm)) :
  (forall r, In r dre -> CNPJ_CIA r <> cnpj b) ->
  laco_bancos w dre bpp selic ibov (b :: resto) res
  = match dre, bpp with
    | [], _ | _, [] => Raise (KeyError "CNPJ_CIA")
    | _, _ => laco_bancos w dre bpp selic ibov resto res
    end.
Proof.
  intros Hsem.
  destruct dre as [| r0 dre0]; [reflexivity|].
  assert (Hl : extrair_lucro (r0 :: dre0) (cnpj b) = Ok []).
  { unfold extrair_lucro.
    rewrite (filter_vazio (fun r => String.eqb (CNPJ_CIA r) (cnpj b))).
    - reflexivity.
    - intros r Hr. apply String.eqb_neq. now apply Hsem. }
  destruct bpp as [| p0 bpp0].
  - cbn [laco_bancos]. unfold processar_banco. rewrite Hl. reflexivity.
  - destruct (extrair_pl_devolve (p0 :: bpp0) (cnpj b)) as [df_pl Hp]; [discriminate|].
    rewrite (laco_bancos_passo w _ _ selic ibov b resto res [] df_pl Hl Hp).
    reflexivity.
Qed.

(** The first bank in the archives of another company: with both tables it is
    skipped, and without the balance sheets its turn raises. *)
Lemma banco_sem_registros_e_pulado_witness :
  laco_bancos mundo_sem_bancos
    [ reg "33.000.167/0001-01" 2010 "3.11" "Lucro/Prejuízo do Período" 10 ]
    [ reg "33.000.167/0001-01" 2010 "2.08" "Patrimônio Líquido" 100 ]
    [] [] BANCOS []
  = laco_bancos mundo_sem_bancos
      [ reg "33.000.167/0001-01" 2010 "3.11" "Lucro/Prejuízo do Período" 10 ]
      [ reg "33.000.167/0001-01" 2010 "2.08" "Patrimônio Líquido" 100 ]
      [] [] (tl BANCOS) []
  /\ laco_bancos mundo_sem_bancos
       [ reg "33.000.167/0001-01" 2010 "3.11" "Lucro/Prejuízo do Período" 10 ]
       [] [] [] BANCOS []
     = Raise (KeyError "CNPJ_CIA").
Proof.
  split.
  - apply (banco_sem_registros_e_pulado mundo_sem_bancos
             [ reg "33.000.167/0001-01" 2010 "3.11" "Lucro/Prejuízo do Período" 10 ]
             [ reg "33.000.167/0001-01" 2010 "2.08" "Patrimônio Líquido" 100 ]
             [] []
             {| nome := "Itaú Unibanco"; ticker := "ITUB4.SA";
                cnpj := "60.872.504/0001-23" |}).
    intros r [<- | []]. discriminate.
  - apply (banco_sem_registros_e_pulado mundo_sem_bancos
             [ reg "33.000.167/0001-01" 2010 "3.11" "Lucro/Prejuízo do Período" 10 ]
             [] [] []
             {| nome := "Itaú Unibanco"; ticker := "ITUB4.SA";
                cnpj := "60.872.504/0001-23" |}).
    intros r [<- | []]. discriminate.
Defined.

(* ================================================================== *)
(** * Further properties of the pipeline *)

(* ------------------------------------------------------------------ *)
(** ** Download of the archives *)

(** The years kept are the requested years whose archive was available, in
    the order requested, and each total is the concatenation of the tables of
    those years in that order: an unavailable year adds nothing and stops
    nothing. *)
Theorem baixar_dados_cvm_anos_disponiveis
    (fonte : Z -> option (list registro * list registro)) (anos : list Z) :
  snd (baixar_dados_cvm fonte anos) = filter (disponivel fonte) anos
  /\ fst (fst (baixar_dados_cvm fonte anos))
     = flat_map (fun a => match fonte a with Some t => fst t | None => [] end) anos
  /\ snd (fst (baixar_dados_cvm fonte anos))
     = flat_map (fun a => match fonte a with Some t => snd t | None => [] end) anos.
Proof.
  induction anos as [| a anos IH]; [now cbn|].
  cbn [baixar_dados_cvm filter flat_map]. unfold disponivel at 1.
  destruct (baixar_dados_cvm fonte anos) as [[dre bpp] ok].
  cbn [fst snd] in IH. destruct IH as [-> [-> ->]].
  destruct (fonte a) as [[d b] |]; cbn; auto.
Qed.

(* ------------------------------------------------------------------ *)
(** ** Archives without a table *)

(** When some year was downloaded and both series came, but no archive held
    a DRE table, or none held a BPP table, the run ends in the KeyError of the
    first bank's extraction: the total is the frame without columns. *)
Theorem main_sem_tabela (w : Fontes) (df_selic df_ibov : serie_anual) :
  anos_baixados_de w <> [] ->
  baixar_selic (bcb w) ANO_INICIAL ANO_FINAL = Ok df_selic ->
  baixar_ibov_anual (yf_ibov w) ANO_INICIAL ANO_FINAL = Ok df_ibov ->
  fst (fst (baixar_dados_cvm (cvm w) ANOS)) = []
  \/ snd (fst (baixar_dados_cvm (cvm w) ANOS)) = [] ->
  main w = Excecao (KeyError "CNPJ_CIA").
Proof.
  unfold main, resultados_de, anos_baixados_de.
  destruct (baixar_dados_cvm (cvm w) ANOS) as [[dre bpp] anos]. cbn [fst snd].
  intros Hanos -> -> Hvazio.
  destruct anos as [| a anos]; [contradiction|]. cbn [bind].
  unfold BANCOS. cbn [laco_bancos]. unfold processar_banco.
  destruct dre as [| r dre]; [reflexivity|].
  destruct Hvazio as [Hv | ->]; [discriminate Hv|].
  unfold extrair_lucro. cbn [bind]. reflexivity.
Qed.

Lemma main_sem_tabela_witness :
  main mundo_sem_tabelas = Excecao (KeyError "CNPJ_CIA").
Proof.
  apply (main_sem_tabela mundo_sem_tabelas
           (anualizar_selic [ (dia 2011 1 3, flt 0.04); (dia 2011 1 4, flt 0.04) ])
           (anualizar_ibov [ (dia 2011 1 3, flt 100); (dia 2011 12 29, flt 115) ])).
  - discriminate.
  - reflexivity.
  - reflexivity.
  - left. reflexivity.
Defined.

(* ------------------------------------------------------------------ *)
(** ** Net income by year *)

Lemma filter_filter_andb {A : Type} (f g : A -> bool) (l : list A) :
  filter g (filter f l) = filter (fun x => f x && g x) l.
Proof.
  induction l as [| x l IH]; cbn; [reflexivity|].
  destruct (f x); cbn; [destruct (g x)|]; now rewrite IH.
Qed.

Lemma filter_map_comm {A B : Type} (g : A -> B) (f : B -> bool) (l : list A) :
  filter f (map g l) = map g (filter (fun x => f (g x)) l).
Proof.
  induction l as [| x l IH]; cbn; [reflexivity|].
  destruct (f (g x)); cbn; now rewrite IH.
Qed.

Lemma filter_sem_elemento {A : Type} (f : A -> bool) (l1 : list A) (x : A)
    (l2 : list A) :
  f x = false -> filter f (l1 ++ x :: l2) = filter f (l1 ++ l2).
Proof. intros H. rewrite !filter_app. cbn. now rewrite H. Qed.

(** The table of a frame with rows, written over the rows kept. *)
Lemma extrair_lucro_forma (dre : list registro) (c : string) :
  dre <> [] ->
  extrair_lucro dre c
  = Ok (map (fun k =>
               (k, nansum (map (fun r => (VL_CONTA r * flt 1000)%num)
                             (filter (fun r => registro_de_lucro c r
                                               && (ano_de (DT_REFER r) =? k))
                                     dre))))
            (chaves (map (fun r => ano_de (DT_REFER r))
                         (filter (registro_de_lucro c) dre)))).
Proof.
  intros Hne. unfold extrair_lucro. destruct dre as [| r0 dre0]; [contradiction|].
  f_equal. rewrite filter_filter_andb.
  change (fun x => String.eqb (CNPJ_CIA x) c
                   && (contem_sem_caixa "Lucro/Prejuízo" (DS_CONTA x)
                       && String.eqb (ORDEM_EXERC x) "ÚLTIMO"))
    with (registro_de_lucro c).
  rewrite (agrupar_map fst (fun g => nansum (map snd g))).
  rewrite !map_map. cbn [fst].
  apply map_ext. intros k. f_equal. f_equal.
  rewrite filter_map_comm, map_map, filter_filter_andb. reflexivity.
Qed.

(** A record of another company, of another account, or of an exercise other
    than the last one does not change the net income table. *)
Theorem extrair_lucro_ignora_registro (l1 l2 : list registro) (r : registro)
    (c : string) :
  registro_de_lucro c r = false ->
  l1 ++ l2 <> [] ->
  extrair_lucro (l1 ++ r :: l2) c = extrair_lucro (l1 ++ l2) c.
Proof.
  intros Hr Hne.
  rewrite !extrair_lucro_forma; [| exact Hne | now destruct l1].
  rewrite (filter_sem_elemento (registro_de_lucro c) l1 r l2 Hr).
  f_equal. apply map_ext. intros k. f_equal. f_equal. f_equal.
  apply filter_sem_elemento. now rewrite Hr.
Qed.

Lemma extrair_lucro_ignora_registro_witness :
  extrair_lucro
    (dre_exemplo 2010
     ++ {| CNPJ_CIA := cnpj_itau; DT_REFER := dia 2009 12 31;
           ORDEM_EXERC := "PENÚLTIMO"; CD_CONTA := "3.11";
           DS_CONTA := "Lucro/Prejuízo Consolidado do Período";
           VL_CONTA := flt 80 |}
     :: dre_exemplo 2011) cnpj_itau
  = extrair_lucro (dre_exemplo 2010 ++ dre_exemplo 2011) cnpj_itau.
Proof.
  apply extrair_lucro_ignora_registro.
  - reflexivity.
  - discriminate.
Defined.

(** The net income table has its years in ascending order, each once, and a
    year is in it exactly when the company has a record kept for that year. *)
Theorem extrair_lucro_anos (dre : list registro) (c : string) (t : serie_anual) :
  extrair_lucro dre c = Ok t ->
  StronglySorted Z.lt (map fst t)
  /\ forall a, In a (map fst t)
               <-> exists r, In r dre /\ registro_de_lucro c r = true
                             /\ ano_de (DT_REFER r) = a.
Proof.
  intros H. assert (Hne : dre <> []) by (intros ->; discriminate H).
  rewrite (extrair_lucro_forma dre c Hne) in H.
  injection H as <-. rewrite map_map. cbn [fst]. rewrite map_id.
  split; [apply chaves_ordenada|].
  intros a. rewrite In_chaves, in_map_iff. split.
  - intros [r [E Hr]]. apply filter_In in Hr. exists r. tauto.
  - intros [r [Hr [Hk E]]]. exists r. split; [exact E|]. apply filter_In. tauto.
Qed.

Lemma extrair_lucro_anos_witness :
  StronglySorted Z.lt (map fst df_lucro_itau)
  /\ forall a, In a (map fst df_lucro_itau)
               <-> exists r, In r dre_total_exemplo
                             /\ registro_de_lucro cnpj_itau r = true
                             /\ ano_de (DT_REFER r) = a.
Proof.
  apply (extrair_lucro_anos dre_total_exemplo cnpj_itau df_lucro_itau).
  vm_compute. avaliar.
Defined.

(* ------------------------------------------------------------------ *)
(** ** Controlling equity by year *)

Lemma combine_map_map {A B C : Type} (f : A -> B) (g : A -> C) (l : list A) :
  combine (map f l) (map g l) = map (fun x => (f x, g x)) l.
Proof. induction l as [| x l IH]; cbn; [reflexivity | now rewrite IH]. Qed.

Lemma extrair_pl_forma (bpp : list registro) (c : string) :
  bpp <> [] ->
  extrair_pl bpp c = Ok (PL_Controlador_de (pivot_table (linhas_pl c bpp))).
Proof.
  intros Hne. unfold extrair_pl, linhas_pl.
  destruct bpp as [| r0 bpp0]; [contradiction|].
  rewrite filter_filter_andb. reflexivity.
Qed.

Lemma celula_linhas_pl (c conta : string) (a : Z) (bpp : list registro) :
  celula (linhas_pl c bpp) a conta
  = match registros_pl c conta a bpp with
    | [] => NaN
    | rs => nansum (map (fun r => (VL_CONTA r * flt 1000)%num) rs)
    end.
Proof.
  unfold celula, linhas_pl, registros_pl.
  rewrite filter_map_comm, filter_filter_andb. cbn [fst snd].
  destruct (filter _ bpp) as [| r rs]; [reflexivity|].
  cbn [map]. rewrite map_map. reflexivity.
Qed.

Lemma celula_vazia (c conta : string) (a : Z) (bpp : list registro) :
  registros_pl c conta a bpp = [] -> celula (linhas_pl c bpp) a conta = NaN.
Proof. intros H. rewrite celula_linhas_pl. now rewrite H. Qed.

Lemma pivot_get_ponto (coluna : list num) :
  pivot_get coluna = map (fun v => if existsb notna coluna then v else flt 0) coluna.
Proof.
  unfold pivot_get. destruct (existsb notna coluna); [now rewrite map_id | reflexivity].
Qed.

(** The controlling equity row by row: each column of the pivot is read as
    it is when it exists (some row has a value in it) and as zero when it does
    not. *)
Lemma PL_Controlador_de_linhas (pivot : list (Z * (num * num))) :
  PL_Controlador_de pivot
  = map (fun l =>
           (fst l,
            ((if existsb notna (map (fun x => fst (snd x)) pivot)
              then fst (snd l) else flt 0)
             - (if existsb notna (map (fun x => snd (snd x)) pivot)
                then snd (snd l) else flt 0))%num))
        pivot.
Proof.
  unfold PL_Controlador_de. rewrite !pivot_get_ponto.
  rewrite !map_map, combine_map_map, map_map, combine_map_map. reflexivity.
Qed.

Lemma buscar_linha_mantida (F : Z * (num * num) -> num)
    (keep : Z * (num * num) -> bool) (G : Z -> num * num) (ks : list Z) (a : Z) :
  In a ks -> keep (a, G a) = true ->
  buscar a (map (fun l => (fst l, F l)) (filter keep (map (fun k => (k, G k)) ks)))
  = Some (F (a, G a)).
Proof.
  intros Ha Hk. induction ks as [| k ks IH]; [contradiction|].
  cbn [map filter]. destruct (Z.eq_dec k a) as [-> | Hne].
  - rewrite Hk. cbn [map buscar fst]. now rewrite Z.eqb_refl.
  - destruct Ha as [E | Ha]; [contradiction|].
    destruct (keep (k, G k)); [|now apply IH].
    cbn [map buscar fst]. rewrite (proj2 (Z.eqb_neq _ _) Hne). now apply IH.
Qed.

(** A cell with a value belongs to a year of the frame. *)
Lemma celula_observada (df : list (Z * (string * num))) (a : Z) (conta : string) :
  notna (celula df a conta) = true -> In a (chaves (map fst df)).
Proof.
  unfold celula. intros H.
  destruct (filter (fun r => (fst r =? a) && String.eqb (fst (snd r)) conta) df)
    as [| r g] eqn:E; [discriminate H|].
  assert (Hr : In r (filter (fun r => (fst r =? a) && String.eqb (fst (snd r)) conta) df))
    by (rewrite E; now left).
  apply filter_In in Hr. destruct Hr as [Hr Hk].
  apply andb_true_iff in Hk. destruct Hk as [Hk _]. apply Z.eqb_eq in Hk.
  apply In_chaves, in_map_iff. now exists r.
Qed.

Lemma linha_do_pivot (df : list (Z * (string * num))) (a : Z) :
  In a (chaves (map fst df)) ->
  notna (celula df a conta_pl_total) || notna (celula df a conta_nao_controladores)
  = true ->
  In (a, (celula df a conta_pl_total, celula df a conta_nao_controladores))
     (pivot_table df).
Proof.
  intros Ha Hk. unfold pivot_table. apply filter_In. split; [|exact Hk].
  apply in_map_iff. now exists a.
Qed.

(** The controlling equity of a year that has a total equity: the total
    minus the year's cell of the non-controlling column when the pivot has
    that column, minus zero when it has not. *)
Lemma extrair_pl_linha (bpp : list registro) (c : string) (t : serie_anual) (a : Z) :
  extrair_pl bpp c = Ok t ->
  notna (celula (linhas_pl c bpp) a conta_pl_total) = true ->
  buscar a t
  = Some (celula (linhas_pl c bpp) a conta_pl_total
          - (if existsb notna
                  (map (fun l => snd (snd l)) (pivot_table (linhas_pl c bpp)))
             then celula (linhas_pl c bpp) a conta_nao_controladores
             else flt 0))%num.
Proof.
  intros H Ht.
  assert (Hne : bpp <> []) by (intros ->; discriminate H).
  rewrite (extrair_pl_forma bpp c Hne) in H. injection H as <-.
  assert (Ha := celula_observada _ _ _ Ht).
  assert (Hl := linha_do_pivot (linhas_pl c bpp) a Ha).
  rewrite Ht in Hl. specialize (Hl eq_refl).
  rewrite PL_Controlador_de_linhas.
  assert (E1 : existsb notna (map (fun x => fst (snd x)) (pivot_table (linhas_pl c bpp)))
               = true).
  { apply existsb_exists. exists (celula (linhas_pl c bpp) a conta_pl_total).
    split; [|exact Ht]. apply in_map_iff.
    now exists (a, (celula (linhas_pl c bpp) a conta_pl_total,
                    celula (linhas_pl c bpp) a conta_nao_controladores)). }
  rewrite E1.
  set (E2 := existsb notna (map (fun x => snd (snd x)) (pivot_table (linhas_pl c bpp)))).
  unfold pivot_table.
  rewrite (buscar_linha_mantida
             (fun l => (fst (snd l) - (if E2 then snd (snd l) else flt 0))%num)
             (fun l => notna (fst (snd l)) || notna (snd (snd l)))
             (fun k => (celula (linhas_pl c bpp) k conta_pl_total,
                        celula (linhas_pl c bpp) k conta_nao_controladores))
             _ a Ha).
  - reflexivity.
  - cbn [fst snd]. now rewrite Ht.
Qed.

(** A record of another company, of an account other than 2.08 and 2.08.09,
    or of an exercise other than the last one does not change the equity
    table. *)
Theorem extrair_pl_ignora_registro (l1 l2 : list registro) (r : registro)
    (c : string) :
  registro_de_pl c r = false ->
  l1 ++ l2 <> [] ->
  extrair_pl (l1 ++ r :: l2) c = extrair_pl (l1 ++ l2) c.
Proof.
  intros Hr Hne.
  rewrite !extrair_pl_forma; [| exact Hne | now destruct l1].
  unfold linhas_pl. now rewrite (filter_sem_elemento (registro_de_pl c) l1 r l2 Hr).
Qed.

Lemma extrair_pl_ignora_registro_witness :
  extrair_pl
    (firstn 2 bpp_completo
     ++ reg cnpj_itau 2020 "2.05" "Provisões" 300 :: skipn 2 bpp_completo) cnpj_itau
  = extrair_pl (firstn 2 bpp_completo ++ skipn 2 bpp_completo) cnpj_itau.
Proof.
  apply extrair_pl_ignora_registro.
  - reflexivity.
  - discriminate.
Defined.

(** When the pivot has the non-controlling column (some year of the company
    has a value for account 2.08.09), the controlling equity of a year that
    has a total equity is the total cell minus the year's non-controlling
    cell; for a year with no record of account 2.08.09 that cell is NaN, and
    so is the controlling equity. *)
Theorem extrair_pl_total_menos_minoritarios (bpp : list registro) (c : string)
    (t : serie_anual) (a k : Z) :
  extrair_pl bpp c = Ok t ->
  notna (celula (linhas_pl c bpp) a conta_pl_total) = true ->
  notna (celula (linhas_pl c bpp) k conta_nao_controladores) = true ->
  buscar a t
  = Some (celula (linhas_pl c bpp) a conta_pl_total
          - celula (linhas_pl c bpp) a conta_nao_controladores)%num
  /\ (registros_pl c conta_nao_controladores a bpp = [] -> buscar a t = Some NaN).
Proof.
  intros H Ht Hk.
  assert (E : buscar a t
              = Some (celula (linhas_pl c bpp) a conta_pl_total
                      - celula (linhas_pl c bpp) a conta_nao_controladores)%num).
  { rewrite (extrair_pl_linha bpp c t a H Ht).
    assert (E2 : existsb notna
                   (map (fun l => snd (snd l)) (pivot_table (linhas_pl c bpp))) = true).
    { apply existsb_exists.
      exists (celula (linhas_pl c bpp) k conta_nao_controladores).
      split; [|exact Hk]. apply in_map_iff.
      exists (k, (celula (linhas_pl c bpp) k conta_pl_total,
                  celula (linhas_pl c bpp) k conta_nao_controladores)).
      split; [reflexivity|]. apply linha_do_pivot.
      - exact (celula_observada _ _ _ Hk).
      - rewrite Hk. apply orb_true_r. }
    now rewrite E2. }
  split; [exact E|]. intros Hsem. rewrite E, (celula_vazia _ _ _ _ Hsem).
  destruct (celula (linhas_pl c bpp) a conta_pl_total); reflexivity.
Qed.

(** Both accounts in 2020 and 2021: the year 2021 is its total less its
    non-controlling interest.  The interest recorded in 2021 only: the year
    2020 is NaN. *)
Lemma extrair_pl_total_menos_minoritarios_witness :
  buscar 2021 [(2020, flt 960000); (2021, flt 1050000)]
  = Some (celula (linhas_pl cnpj_itau bpp_completo) 2021 conta_pl_total
          - celula (linhas_pl cnpj_itau bpp_completo) 2021 conta_nao_controladores)%num
  /\ buscar 2020 [(2020, NaN); (2021, flt 1050000)] = Some NaN.
Proof.
  split.
  - apply (extrair_pl_total_menos_minoritarios bpp_completo cnpj_itau _ 2021 2020).
    + vm_compute. avaliar.
    + reflexivity.
    + reflexivity.
  - apply (extrair_pl_total_menos_minoritarios bpp_minoritarios_2021 cnpj_itau _
             2020 2021).
    + vm_compute. avaliar.
    + reflexivity.
    + reflexivity.
    + reflexivity.
Defined.

(** When no record kept for the company is of the non-controlling account,
    the pivot has no such column and zero is subtracted: the controlling
    equity of a year that has a total equity is the total cell minus zero. *)
Theorem extrair_pl_sem_minoritarios (bpp : list registro) (c : string)
    (t : serie_anual) (a : Z) :
  extrair_pl bpp c = Ok t ->
  (forall r, In r bpp -> registro_de_pl c r = true -> CD_CONTA r = conta_pl_total) ->
  notna (celula (linhas_pl c bpp) a conta_pl_total) = true ->
  buscar a t = Some (celula (linhas_pl c bpp) a conta_pl_total - flt 0)%num.
Proof.
  intros H Hso Ht. rewrite (extrair_pl_linha bpp c t a H Ht).
  assert (Hmin : forall y, celula (linhas_pl c bpp) y conta_nao_controladores = NaN).
  { intros y. apply celula_vazia. unfold registros_pl. apply filter_vazio.
    intros r Hr. destruct (registro_de_pl c r) eqn:Hkept; [|reflexivity].
    rewrite (Hso r Hr Hkept). cbn [andb].
    now rewrite andb_false_r. }
  assert (E2 : existsb notna
                 (map (fun l => snd (snd l)) (pivot_table (linhas_pl c bpp))) = false).
  { apply not_true_is_false. intros E. apply existsb_exists in E.
    destruct E as [v [Hv Hn]]. apply in_map_iff in Hv. destruct Hv as [l [<- Hl]].
    unfold pivot_table in Hl. apply filter_In in Hl. destruct Hl as [Hl _].
    apply in_map_iff in Hl. destruct Hl as [y [<- _]]. cbn [snd] in Hn.
    rewrite Hmin in Hn. discriminate Hn. }
  now rewrite E2.
Qed.

Lemma extrair_pl_sem_minoritarios_witness :
  buscar 2020 [(2020, flt 1000000); (2021, flt 1100000)]
  = Some (celula (linhas_pl cnpj_itau (firstn 2 bpp_minoritarios_2021)) 2020
            conta_pl_total - flt 0)%num.
Proof.
  apply (extrair_pl_sem_minoritarios (firstn 2 bpp_minoritarios_2021) cnpj_itau).
  - vm_compute. avaliar.
  - intros r Hr _. cbn in Hr.
    repeat (destruct Hr as [<- | Hr]; [reflexivity|]). contradiction.
  - reflexivity.
Defined.

(* ------------------------------------------------------------------ *)
(** ** ROE: the first merged row, and the row above *)

Lemma length_linhas_roe (df : list (Z * (num * num))) :
  forall ant, List.length (linhas_roe ant df) = List.length df.
Proof.
  induction df as [| [a [lucro pl]] df IH]; intros ant; cbn; [reflexivity|].
  now rewrite IH.
Qed.

Lemma In_linhas_roe (df : list (Z * (num * num))) :
  forall ant r, In r (linhas_roe ant df) ->
                In (Ano r, (Lucro_Liquido r, PL_Controlador r)) df.
Proof.
  induction df as [| [a [lucro pl]] df IH]; intros ant r; cbn; [tauto|].
  intros [<- | H]; [now left | right; now apply (IH pl)].
Qed.

Lemma In_merge_ano (l p : serie_anual) (a : Z) (x y : num) :
  In (a, (x, y)) (merge_ano l p) <-> In (a, x) l /\ In (a, y) p.
Proof.
  unfold merge_ano. rewrite in_flat_map. split.
  - intros [[k v] [Hl H]]. apply in_map_iff in H. destruct H as [[k' v'] [E H]].
    apply filter_In in H. destruct H as [Hp Hk]. cbn in E, Hk.
    apply Z.eqb_eq in Hk. injection E as -> -> ->. subst k'. now split.
  - intros [Hl Hp]. exists (a, x). split; [exact Hl|].
    apply in_map_iff. exists (a, y). split; [reflexivity|].
    apply filter_In. split; [exact Hp | apply Z.eqb_refl].
Qed.

(** The first row of the merged frame never reaches the ROE table, whatever
    the inputs: the table has fewer rows than the merged frame (none when the
    two inputs share at most one row), and each of its rows carries an income
    of the income table and an equity of the equity table for its year. *)
Theorem calcular_roe_perde_a_primeira (df_lucro df_pl : serie_anual) :
  (List.length (calcular_roe df_lucro df_pl)
   <= Nat.pred (List.length (merge_ano df_lucro df_pl)))%nat
  /\ forall r, In r (calcular_roe df_lucro df_pl) ->
               In (Ano r, Lucro_Liquido r) df_lucro
               /\ In (Ano r, PL_Controlador r) df_pl.
Proof.
  unfold calcular_roe. rewrite roe_antes_dropna_linhas. split.
  - destruct (merge_ano df_lucro df_pl) as [| [a [lucro pl]] df]; [cbn; lia|].
    cbn [linhas_roe filter]. unfold linha_completa at 1. cbn [PL_Inicial].
    replace (notna NaN) with false by reflexivity.
    rewrite andb_false_r. cbn [andb List.length Nat.pred].
    rewrite <- (length_linhas_roe df pl). apply filter_length_le.
  - intros r Hr. apply filter_In in Hr. destruct Hr as [Hr _].
    apply In_linhas_roe in Hr. now apply In_merge_ano.
Qed.

Lemma buscar_Some_In (k : Z) (v : num) (t : serie_anual) :
  buscar k t = Some v -> In (k, v) t.
Proof.
  induction t as [| [k' v'] t IH]; cbn; [discriminate|].
  destruct (Z.eqb_spec k' k) as [-> | _].
  - intros E. injection E as ->. now left.
  - intros H. right. now apply IH.
Qed.

Lemma buscar_None (k : Z) (t : serie_anual) :
  buscar k t = None -> ~ In k (map fst t).
Proof.
  induction t as [| [k' v'] t IH]; cbn; [tauto|].
  destruct (Z.eqb_spec k' k) as [-> | Hne]; [discriminate|].
  intros H [E | Hin]; [contradiction | now apply IH].
Qed.

Lemma tem_ano_In (t : serie_anual) (k : Z) :
  tem_ano t k = true <-> In k (map fst t).
Proof.
  unfold tem_ano. destruct (buscar k t) as [v |] eqn:E.
  - split; [|reflexivity]. intros _. apply buscar_Some_In in E.
    apply in_map_iff. now exists (k, v).
  - split; [discriminate|]. intros H. now apply buscar_None in E.
Qed.

Lemma merge_ano_filtra (l p : serie_anual) :
  NoDup (map fst p) ->
  merge_ano l p
  = map (fun x => (fst x, (snd x, valor_em p (fst x))))
        (filter (fun x => tem_ano p (fst x)) l).
Proof.
  intros Hnd. unfold merge_ano.
  induction l as [| x l IH]; [reflexivity|].
  cbn [flat_map filter]. rewrite IH. unfold tem_ano, valor_em.
  destruct (buscar (fst x) p) as [v |] eqn:E.
  - destruct (filter_ano_unico (fst x) v p Hnd (buscar_Some_In _ _ _ E)) as [-> _].
    cbn. now rewrite E.
  - now rewrite (buscar_ausente (fst x) p (buscar_None _ _ E)).
Qed.

Lemma ordenada_NoDup (ks : list Z) : StronglySorted Z.lt ks -> NoDup ks.
Proof.
  induction 1 as [| k ks Hs IH Hk]; constructor; [|exact IH].
  intros Hin. rewrite Forall_forall in Hk. specialize (Hk k Hin). lia.
Qed.

Lemma filter_ordenada {A : Type} (chave : A -> Z) (q : A -> bool) (l : list A) :
  StronglySorted Z.lt (map chave l) -> StronglySorted Z.lt (map chave (filter q l)).
Proof.
  induction l as [| x l IH]; cbn; [constructor|].
  intros H. inversion H as [| ? ? Hs Hx]; subst.
  destruct (q x); cbn; [|now apply IH].
  constructor; [now apply IH|].
  rewrite Forall_forall in Hx |- *. intros z Hz. apply Hx.
  apply in_map_iff in Hz. destruct Hz as [y [<- Hy]].
  apply filter_In in Hy. apply in_map. tauto.
Qed.

(** In a frame of ascending years, the equity "at the start" of the first row
    is the one handed in from above the frame, and that of any other row is
    the equity of the nearest row above. *)
Lemma linhas_roe_linha_acima (df : list (Z * (num * num))) :
  forall (ant : num) (r : linha_roe),
  StronglySorted Z.lt (map fst df) ->
  In r (linhas_roe ant df) ->
  (exists lucro pl resto, df = (Ano r, (lucro, pl)) :: resto /\ PL_Inicial r = ant)
  \/ exists k lucro pl,
       In (k, (lucro, pl)) df /\ k < Ano r /\ PL_Inicial r = pl
       /\ forall z, In z (map fst df) -> ~ (k < z < Ano r).
Proof.
  induction df as [| [a [lucro pl]] df IH]; intros ant r Hs Hr; [contradiction|].
  cbn in Hs. inversion Hs as [| ? ? Hs' Ha]; subst.
  rewrite Forall_forall in Ha.
  cbn in Hr. destruct Hr as [<- | Hr].
  - left. exists lucro, pl, df. now split.
  - right.
    destruct (IH pl r Hs' Hr)
      as [[lu [pl0 [resto [-> E]]]] | [k [lu [pl' [Hin [Hlt [E Hentre]]]]]]].
    + exists a, lucro, pl.
      assert (Hlt : a < Ano r) by (apply Ha; now left).
      repeat split; [now left | exact Hlt | exact E |].
      cbn in Hs'. inversion Hs' as [| ? ? _ Hr0]; subst.
      rewrite Forall_forall in Hr0.
      intros z Hz [H1 H2]. cbn in Hz.
      destruct Hz as [<- | [<- | Hz]]; try lia.
      specialize (Hr0 z Hz). lia.
    + exists k, lu, pl'. repeat split; [now right | exact Hlt | exact E |].
      intros z Hz. cbn in Hz. destruct Hz as [<- | Hz]; [|now apply Hentre].
      assert (a < k) by (apply Ha, in_map_iff; now exists (k, (lu, pl'))). lia.
Qed.

(** For tables of ascending years, the equity "at the start" of every ROE row
    is the equity of the nearest earlier year that both tables hold: the year
    before when both hold it, an older year when they do not. *)
Theorem calcular_roe_ano_comum_anterior (df_lucro df_pl : serie_anual)
    (r : linha_roe) :
  StronglySorted Z.lt (map fst df_lucro) ->
  StronglySorted Z.lt (map fst df_pl) ->
  In r (calcular_roe df_lucro df_pl) ->
  exists k, k < Ano r
            /\ In k (map fst df_lucro)
            /\ buscar k df_pl = Some (PL_Inicial r)
            /\ forall z, k < z < Ano r ->
                         ~ (In z (map fst df_lucro) /\ In z (map fst df_pl)).
Proof.
  intros Hl Hp Hr.
  unfold calcular_roe in Hr. apply filter_In in Hr. destruct Hr as [Hr Hc].
  assert (Hini : isna (PL_Inicial r) = false).
  { unfold linha_completa in Hc. rewrite !andb_true_iff in Hc.
    apply isna_notna. tauto. }
  rewrite roe_antes_dropna_linhas in Hr.
  pose proof (ordenada_NoDup _ Hp) as Hnd.
  rewrite (merge_ano_filtra df_lucro df_pl Hnd) in Hr.
  apply linhas_roe_linha_acima in Hr.
  2:{ rewrite map_map. cbn [fst]. now apply filter_ordenada. }
  destruct Hr as [[lu [pl [resto [_ E]]]] | [k [lu [pl [Hin [Hlt [E Hentre]]]]]]].
  - rewrite E in Hini. discriminate Hini.
  - apply in_map_iff in Hin. destruct Hin as [x [Ex Hx]].
    injection Ex as <- <- <-.
    apply filter_In in Hx. destruct Hx as [Hx Htem].
    exists (fst x). repeat split.
    + exact Hlt.
    + now apply in_map.
    + rewrite E. unfold tem_ano, valor_em in *.
      destruct (buscar (fst x) df_pl); [reflexivity | discriminate Htem].
    + intros z Hz [Hzl Hzp]. apply (Hentre z); [|exact Hz].
      rewrite map_map. cbn [fst].
      apply in_map_iff in Hzl. destruct Hzl as [y [<- Hy]].
      apply in_map. apply filter_In. split; [exact Hy|].
      now apply tem_ano_In.
Qed.

Lemma calcular_roe_ano_comum_anterior_witness :
  exists k, k < 2022
            /\ In k (map fst lucro_com_lacuna)
            /\ buscar k pl_com_lacuna = Some (flt 1000)
            /\ forall z, k < z < 2022 ->
                         ~ (In z (map fst lucro_com_lacuna)
                            /\ In z (map fst pl_com_lacuna)).
Proof.
  apply (calcular_roe_ano_comum_anterior lucro_com_lacuna pl_com_lacuna
           {| Ano := 2022; Lucro_Liquido := flt 120; PL_Controlador := flt 1200;
              PL_Inicial := flt 1000; ROE := flt 0.12 |}).
  - repeat constructor.
  - repeat constructor.
  - left. vm_compute. avaliar.
Defined.

(* ------------------------------------------------------------------ *)
(** ** SELIC: the request windows *)

Lemma filter_seq_unico (P : nat -> bool) (k n : nat) :
  (k < n)%nat ->
  (forall i, (i < n)%nat -> i <> k -> P i = false) ->
  P k = true ->
  filter P (seq 0 n) = [k].
Proof.
  intros Hk Hfora Hem.
  replace n with (k + (1 + (n - S k)))%nat by lia.
  rewrite !seq_app, !filter_app. change (0 + k)%nat with k.
  cbn [seq filter]. rewrite Hem.
  rewrite !filter_vazio; [reflexivity | |].
  - intros i Hi. apply in_seq in Hi. apply Hfora; lia.
  - intros i Hi. apply in_seq in Hi. apply Hfora; lia.
Qed.

(** The windows of the SELIC requests split the years from [ano_ini] to
    [ano_fim]: each window lies inside that range and spans at most ten
    years, and every year of the range is in exactly one window. *)
Theorem blocos_particao (ano_ini ano_fim : Z) :
  (forall b, In b (blocos ano_ini ano_fim) ->
             ano_ini <= fst b <= snd b /\ snd b <= ano_fim /\ snd b <= fst b + 9)
  /\ (forall y, ano_ini <= y <= ano_fim ->
                exists b, filter (fun b => (fst b <=? y) && (y <=? snd b))
                                 (blocos ano_ini ano_fim) = [b]).
Proof.
  unfold blocos. split.
  - intros b Hb. apply in_map_iff in Hb. destruct Hb as [i [<- Hi]].
    apply in_seq in Hi. cbn [fst snd].
    assert (Z.of_nat i < (ano_fim - ano_ini + 10) / 10) by lia.
    assert (10 * ((ano_fim - ano_ini + 10) / 10) <= ano_fim - ano_ini + 10)
      by (apply Z.mul_div_le; lia).
    lia.
  - intros y Hy.
    pose proof (Z.div_mod (y - ano_ini) 10 ltac:(lia)) as Hdm.
    pose proof (Z.mod_pos_bound (y - ano_ini) 10 ltac:(lia)) as Hmod.
    assert (Hq : 0 <= (y - ano_ini) / 10) by (apply Z.div_pos; lia).
    assert (Hn : (y - ano_ini) / 10 < (ano_fim - ano_ini + 10) / 10).
    { apply Z.div_lt_upper_bound; [lia|].
      assert (ano_fim - ano_ini + 10 < 10 * ((ano_fim - ano_ini + 10) / 10) + 10).
      { pose proof (Z.div_mod (ano_fim - ano_ini + 10) 10 ltac:(lia)).
        pose proof (Z.mod_pos_bound (ano_fim - ano_ini + 10) 10 ltac:(lia)). lia. }
      lia. }
    eexists. rewrite filter_map_comm.
    rewrite (filter_seq_unico _ (Z.to_nat ((y - ano_ini) / 10))).
    + reflexivity.
    + lia.
    + intros i Hi Hne. cbn [fst snd].
      apply andb_false_iff.
      destruct (Z.leb_spec (ano_ini + 10 * Z.of_nat i) y) as [Hle | Hgt];
        [right | now left].
      apply Z.leb_gt.
      assert (Z.of_nat i < (y - ano_ini) / 10).
      { assert (Z.of_nat i <= (y - ano_ini) / 10)
          by (apply Z.div_le_lower_bound; lia). lia. }
      lia.
    + cbn [fst snd]. rewrite Z2Nat.id by lia.
      apply andb_true_iff. split; [apply Z.leb_le | apply Z.leb_le]; lia.
Qed.

Lemma baixar_blocos_Ok (fonte : Z -> Z -> result (list (data * num)))
    (bs : list (Z * Z)) :
  forall todos, baixar_blocos fonte bs = Ok todos ->
  (forall b, In b bs -> exists pontos, fonte (fst b) (snd b) = Ok pontos)
  /\ todos = flat_map (fun b => match fonte (fst b) (snd b) with
                                | Ok pontos => pontos
                                | Raise _ => []
                                end) bs.
Proof.
  induction bs as [| b bs IH]; intros todos H; cbn in H.
  - injection H as <-. split; [intros b []|reflexivity].
  - destruct (fonte (fst b) (snd b)) as [pontos | e] eqn:Eb; [|discriminate H].
    cbn [bind] in H.
    destruct (baixar_blocos fonte bs) as [demais | e]; [|discriminate H].
    cbn [bind] in H. injection H as <-.
    destruct (IH demais eq_refl) as [Hall ->]. split.
    + intros b' [<- | Hb']; [now exists pontos | now apply Hall].
    + cbn [flat_map]. now rewrite Eb.
Qed.

(** [baixar_selic] returns a table only when the request of every window
    succeeded; the table is then the annualization of the points of all the
    windows, concatenated in the order of the windows. *)
Theorem baixar_selic_todas_as_janelas (fonte : Z -> Z -> result (list (data * num)))
    (ano_ini ano_fim : Z) (t : serie_anual) :
  baixar_selic fonte ano_ini ano_fim = Ok t ->
  (forall b, In b (blocos ano_ini ano_fim) ->
             exists pontos, fonte (fst b) (snd b) = Ok pontos)
  /\ t = anualizar_selic
           (flat_map (fun b => match fonte (fst b) (snd b) with
                               | Ok pontos => pontos
                               | Raise _ => []
                               end) (blocos ano_ini ano_fim)).
Proof.
  unfold baixar_selic. intros H.
  destruct (baixar_blocos fonte (blocos ano_ini ano_fim)) as [todos | e] eqn:E;
    [|discriminate H].
  cbn [bind] in H. destruct todos as [| p todos]; [discriminate H|].
  injection H as <-.
  destruct (baixar_blocos_Ok fonte _ _ E) as [Hall <-]. now split.
Qed.

Lemma baixar_selic_todas_as_janelas_witness :
  (forall b, In b (blocos 2010 2024) ->
             exists pontos, bcb_exemplo (fst b) (snd b) = Ok pontos)
  /\ anualizar_selic [ (dia 2011 1 3, flt 0.04); (dia 2011 1 4, flt 0.04) ]
     = anualizar_selic
         (flat_map (fun b => match bcb_exemplo (fst b) (snd b) with
                             | Ok pontos => pontos
                             | Raise _ => []
                             end) (blocos 2010 2024)).
Proof.
  apply (baixar_selic_todas_as_janelas bcb_exemplo 2010 2024).
  reflexivity.
Defined.

(** A failed request of one SELIC window ends the run in an exception: no
    bank is valued from a partial series and no workbook is written. *)
Theorem main_janela_selic_falha (w : Fontes) (b : Z * Z) (e : excecao) :
  In b (blocos ANO_INICIAL ANO_FINAL) ->
  bcb w (fst b) (snd b) = Raise e ->
  exists e', main w = Excecao e'.
Proof.
  intros Hb He. unfold main, resultados_de.
  destruct (baixar_dados_cvm (cvm w) ANOS) as [[dre bpp] anos].
  destruct anos as [| a anos]; [now eexists|].
  unfold baixar_selic.
  destruct (baixar_blocos (bcb w) (blocos ANO_INICIAL ANO_FINAL)) as [todos | e']
    eqn:E.
  - destruct (baixar_blocos_Ok _ _ _ E) as [Hall _].
    destruct (Hall b Hb) as [pontos Hp]. rewrite Hp in He. discriminate He.
  - cbn [bind]. now exists e'.
Qed.

Lemma main_janela_selic_falha_witness :
  exists e', main {| cvm := cvm_exemplo;
                     bcb := fun inicio fim =>
                              if inicio =? 2020 then Raise (ErroExterno "HTTP 502")
                              else bcb_exemplo inicio fim;
                     yf_ibov := yf_ibov_exemplo;
                     yf_retornos := yf_retornos_exemplo;
                     ols := ols_que_devolve |} = Excecao e'.
Proof.
  apply (main_janela_selic_falha _ (2020, 2024) (ErroExterno "HTTP 502")).
  - right. left. reflexivity.
  - reflexivity.
Defined.

(* ------------------------------------------------------------------ *)
(** ** CAPM: which ROE rows are valued *)

Lemma filtro_do_ano (t : serie_anual) (a : Z) :
  NoDup (map fst t) ->
  filter (fun s => fst s =? a) t
  = match buscar a t with Some v => [(a, v)] | None => [] end.
Proof.
  intros Hnd. destruct (buscar a t) as [v |] eqn:E.
  - now destruct (filter_ano_unico a v t Hnd (buscar_Some_In _ _ _ E)).
  - apply buscar_ausente. now apply buscar_None.
Qed.

(** When the SELIC table and the IBOV table have one row per year, the
    valuation table has one row for each ROE row whose year is in both
    tables, in the order of the ROE table, and no other row; a ROE row of a
    year missing from either table is dropped. *)
Theorem calcular_capm_linhas (df_roe : list linha_roe) (df_selic df_ibov : serie_anual)
    (b : num) :
  NoDup (map fst df_selic) ->
  NoDup (map fst df_ibov) ->
  map base (calcular_capm df_roe df_selic df_ibov b)
  = filter (fun r => tem_ano df_selic (Ano r) && tem_ano df_ibov (Ano r)) df_roe.
Proof.
  intros Hs Hi. unfold calcular_capm.
  induction df_roe as [| r df_roe IH]; [reflexivity|].
  cbn [flat_map filter]. rewrite flat_map_app, map_app, map_app, IH.
  rewrite (filtro_do_ano df_selic (Ano r) Hs). unfold tem_ano.
  destruct (buscar (Ano r) df_selic) as [rf |]; [|reflexivity].
  cbn [map flat_map fst]. rewrite app_nil_r.
  rewrite (filtro_do_ano df_ibov (Ano r) Hi).
  destruct (buscar (Ano r) df_ibov) as [rm |]; reflexivity.
Qed.

Lemma calcular_capm_linhas_witness :
  map base (calcular_capm (calcular_roe df_lucro_itau df_pl_itau)
              [(2010, flt 0.09); (2011, flt 0.11)] [(2011, flt 0.15); (2012, flt 0.07)]
              (flt 1.2))
  = filter (fun r => tem_ano [(2010, flt 0.09); (2011, flt 0.11)] (Ano r)
                     && tem_ano [(2011, flt 0.15); (2012, flt 0.07)] (Ano r))
           (calcular_roe df_lucro_itau df_pl_itau).
Proof.
  apply calcular_capm_linhas.
  - repeat constructor; cbn; intuition discriminate.
  - repeat constructor; cbn; intuition discriminate.
Defined.

(* ------------------------------------------------------------------ *)
(** ** The banks of the workbook *)

Lemma dict_set_chaves {V : Type} (k k' : string) (v : V) (d : dict V) :
  In k (map fst (dict_set k' v d)) <-> k = k' \/ In k (map fst d).
Proof.
  induction d as [| [k0 v0] d IH]; cbn.
  - intuition.
  - destruct (String.eqb_spec k0 k') as [-> | Hne]; cbn.
    + intuition.
    + rewrite IH. intuition.
Qed.

Lemma dict_set_NoDup {V : Type} (k : string) (v : V) (d : dict V) :
  NoDup (map fst d) -> NoDup (map fst (dict_set k v d)).
Proof.
  induction d as [| [k0 v0] d IH]; cbn; intros H.
  - repeat constructor. intros [].
  - inversion H as [| ? ? Hk0 Hd]; subst.
    destruct (String.eqb_spec k0 k) as [-> | Hne]; cbn.
    + now constructor.
    + constructor; [|now apply IH].
      rewrite dict_set_chaves. intros [E | Hin]; [now apply Hne | contradiction].
Qed.

Lemma laco_bancos_chaves (w : Fontes) (dre bpp : list registro)
    (selic ibov : serie_anual) (bancos : list banco) :
  forall res0 res,
  laco_bancos w dre bpp selic ibov bancos res0 = Ok res ->
  (NoDup (map fst res0) -> NoDup (map fst res))
  /\ forall k, In k (map fst res)
               <-> In k (map fst res0)
                   \/ exists b, In b bancos /\ nome b = k /\ banco_com_roe dre bpp b.
Proof.
  induction bancos as [| b bancos IH]; intros res0 res H.
  - cbn in H. injection H as <-. split; [auto|].
    intros k. split; [now left|]. intros [Hk | [b [[] _]]]. exact Hk.
  - cbn [laco_bancos] in H. unfold processar_banco in H.
    destruct (extrair_lucro dre (cnpj b)) as [df_lucro | e] eqn:El; [|discriminate H].
    destruct (extrair_pl bpp (cnpj b)) as [df_pl | e] eqn:Ep; [|discriminate H].
    cbn [bind] in H.
    destruct (calcular_roe df_lucro df_pl) as [| r0 df_roe] eqn:Er.
    + cbn [bind] in H. destruct (IH _ _ H) as [Hnd Hk]. split; [exact Hnd|].
      intros k. rewrite Hk. split.
      * intros [Hin | [b' [Hb' Hrest]]]; [now left|].
        right. exists b'. split; [now right | exact Hrest].
      * intros [Hin | [b' [[<- | Hb'] [Hn Hroe]]]]; [now left | |].
        -- exfalso. destruct Hroe as [l [p [Hl [Hp Hne]]]].
           rewrite El in Hl. rewrite Ep in Hp.
           injection Hl as <-. injection Hp as <-. now apply Hne.
        -- right. now exists b'.
    + destruct (calcular_beta w (ticker b)) as [bt | e]; [|discriminate H].
      cbn [bind] in H. destruct (IH _ _ H) as [Hnd Hk]. split.
      * intros H0. apply Hnd. now apply dict_set_NoDup.
      * intros k. rewrite Hk, dict_set_chaves. split.
        -- intros [[-> | Hin] | [b' [Hb' Hrest]]].
           ++ right. exists b. split; [now left|]. split; [reflexivity|].
              exists df_lucro, df_pl. rewrite Er. repeat split; auto. discriminate.
           ++ now left.
           ++ right. exists b'. split; [now right | exact Hrest].
        -- intros [Hin | [b' [[<- | Hb'] [Hn Hroe]]]].
           ++ left. now right.
           ++ left. now left.
           ++ right. now exists b'.
Qed.

(** When a workbook is written, the banks in it are exactly the configured
    banks that have a ROE table with rows, each of them once. *)
Theorem main_planilha_bancos (w : Fontes) (res : dict (list linha_capm)) :
  main w = Planilha res ->
  res <> []
  /\ NoDup (map fst res)
  /\ forall k, In k (map fst res)
               <-> exists b, In b BANCOS /\ nome b = k
                             /\ banco_com_roe
                                  (fst (fst (baixar_dados_cvm (cvm w) ANOS)))
                                  (snd (fst (baixar_dados_cvm (cvm w) ANOS))) b.
Proof.
  unfold main, resultados_de.
  destruct (baixar_dados_cvm (cvm w) ANOS) as [[dre bpp] anos]. cbn [fst snd].
  destruct anos as [| a anos]; [discriminate|].
  destruct (baixar_selic (bcb w) ANO_INICIAL ANO_FINAL) as [selic | e]; [|discriminate].
  destruct (baixar_ibov_anual (yf_ibov w) ANO_INICIAL ANO_FINAL) as [ibov | e];
    [|discriminate].
  cbn [bind].
  destruct (laco_bancos w dre bpp selic ibov BANCOS []) as [res' | e] eqn:E;
    [|discriminate].
  destruct res' as [| x res']; [discriminate|].
  intros H. injection H as <-.
  destruct (laco_bancos_chaves w dre bpp selic ibov BANCOS [] _ E) as [Hnd Hk].
  split; [discriminate|]. split; [apply Hnd; constructor|].
  intros k. rewrite Hk. cbn [map].
  split; [intros [[] | H]; exact H | intros H; now right].
Qed.

Lemma main_planilha_bancos_witness :
  exists res,
    main (mundo_exemplo ols_que_devolve) = Planilha res
    /\ res <> []
    /\ NoDup (map fst res)
    /\ forall k, In k (map fst res)
                 <-> exists b, In b BANCOS /\ nome b = k
                               /\ banco_com_roe
                                    (fst (fst (baixar_dados_cvm cvm_exemplo ANOS)))
                                    (snd (fst (baixar_dados_cvm cvm_exemplo ANOS))) b.
Proof.
  destruct (main (mundo_exemplo ols_que_devolve)) as [e | | res] eqn:E;
    [vm_compute in E; discriminate E | vm_compute in E; discriminate E |].
  exists res. split; [reflexivity|].
  exact (main_planilha_bancos (mundo_exemplo ols_que_devolve) res E).
Defined.

(* ------------------------------------------------------------------ *)
(** ** The worksheet after a table was written *)

Lemma item_cons {A : Type} (x : A) (l : list A) (inicio i : Z) :
  item (x :: l) inicio i = if i =? inicio then Some x else item l (inicio + 1) i.
Proof.
  unfold item.
  destruct (Z.eqb_spec i inicio) as [-> | Hne].
  - rewrite Z.ltb_irrefl, Z.sub_diag. reflexivity.
  - destruct (Z.ltb_spec i inicio) as [Hlt | Hge].
    + destruct (Z.ltb_spec i (inicio + 1)); [reflexivity | lia].
    + destruct (Z.ltb_spec i (inicio + 1)); [lia|].
      replace (Z.to_nat (i - inicio)) with (S (Z.to_nat (i - (inicio + 1)))) by lia.
      reflexivity.
Qed.

Lemma item_nat {A : Type} (l : list A) (inicio : Z) (j : nat) :
  item l inicio (inicio + Z.of_nat j) = nth_error l j.
Proof.
  unfold item. destruct (Z.ltb_spec (inicio + Z.of_nat j) inicio); [lia|].
  f_equal. lia.
Qed.

Lemma item_antes {A : Type} (l : list A) (inicio i : Z) :
  i < inicio -> item l inicio i = None.
Proof. intros H. unfold item. destruct (Z.ltb_spec i inicio); [reflexivity | lia]. Qed.

(** A loop that writes one cell per element of an enumerated list, all in
    the row [r]. *)
Lemma celulas_laco_linha {A : Type} (g : Z -> A -> celula_xl -> celula_xl) (r : Z)
    (l : list A) :
  forall (c0 : Z) (ws : worksheet) (r' c' : Z),
  celulas (fold_left (fun ws cv => alterar ws r (fst cv) (g (fst cv) (snd cv)))
                     (enumerar c0 l) ws) r' c'
  = match (if r' =? r then item l c0 c' else None) with
    | Some v => g c' v (celulas ws r' c')
    | None => celulas ws r' c'
    end.
Proof.
  induction l as [| x l IH]; intros c0 ws r' c'; cbn [enumerar fold_left].
  - unfold item. destruct (r' =? r), (c' <? c0); try reflexivity;
      now destruct (Z.to_nat (c' - c0)).
  - rewrite IH, item_cons. cbn [alterar celulas fst snd].
    destruct (Z.eqb_spec r' r) as [-> | Hr]; cbn [andb]; [|reflexivity].
    destruct (Z.eqb_spec c' c0) as [-> | Hc].
    + now rewrite item_antes by lia.
    + reflexivity.
Qed.

(** A loop over enumerated rows whose body writes in its own row only. *)
Lemma celulas_laco_linhas {A : Type} (W : worksheet -> Z -> A -> worksheet)
    (F : A -> Z -> celula_xl -> celula_xl) :
  (forall ws r x r' c',
     celulas (W ws r x) r' c'
     = if r' =? r then F x c' (celulas ws r' c') else celulas ws r' c') ->
  forall (l : list A) (r0 : Z) (ws : worksheet) (r' c' : Z),
  celulas (fold_left (fun ws rx => W ws (fst rx) (snd rx)) (enumerar r0 l) ws) r' c'
  = match item l r0 r' with
    | Some x => F x c' (celulas ws r' c')
    | None => celulas ws r' c'
    end.
Proof.
  intros HW. induction l as [| x l IH]; intros r0 ws r' c'; cbn [enumerar fold_left].
  - unfold item. destruct (r' <? r0); [reflexivity|]. now destruct (Z.to_nat (r' - r0)).
  - rewrite IH, item_cons, HW. cbn [fst snd].
    destruct (Z.eqb_spec r' r0) as [-> | Hr]; [|reflexivity].
    now rewrite item_antes by lia.
Qed.

Lemma celulas_laco_largura {A : Type} (c : A -> Z) (w : A -> Z) (l : list A) :
  forall ws, celulas (fold_left (fun ws x => por_largura ws (c x) (w x)) l ws)
             = celulas ws.
Proof. induction l as [| x l IH]; intros ws; cbn; [reflexivity | now rewrite IH]. Qed.

Lemma celulas_escrever_linha (cols : list string) (ws : worksheet) (r : Z)
    (row : list valor_celula) (r' c' : Z) :
  celulas (escrever_linha cols ws r row) r' c'
  = if r' =? r
    then match item row 1 c' with
         | Some v => formatar (nth (Z.to_nat (c' - 1)) cols EmptyString) v
                       (por_valor (Some v) (celulas ws r' c'))
         | None => celulas ws r' c'
         end
    else celulas ws r' c'.
Proof.
  unfold escrever_linha.
  rewrite (celulas_laco_linha
             (fun c v x => formatar (nth (Z.to_nat (c - 1)) cols EmptyString) v
                             (por_valor (Some v) x))).
  now destruct (r' =? r).
Qed.

(** The cells of the sheet after [_escrever_df], one by one. *)
Lemma celulas_escrever_df (ws : worksheet) (df : quadro) (titulo : option string)
    (r' c' : Z) :
  let ro := if verdadeiro titulo then 3 else 1 in
  let antes :=
    if verdadeiro titulo && (r' =? 1) && (c' =? 1)
    then por_fonte TITLE_FONT (por_valor (option_map VStr titulo) (celulas ws r' c'))
    else celulas ws r' c' in
  let cabecalho :=
    match (if r' =? ro then item (colunas df) 1 c' else None) with
    | Some h => por_centro (por_fonte HEADER_FONT
                              (por_fill (por_valor (Some (VStr h)) antes)))
    | None => antes
    end in
  celulas (fst (_escrever_df ws df titulo)) r' c'
  = match item (linhas_q df) (ro + 1) r' with
    | Some row =>
        match item row 1 c' with
        | Some v => formatar (nth (Z.to_nat (c' - 1)) (colunas df) EmptyString) v
                      (por_valor (Some v) cabecalho)
        | None => cabecalho
        end
    | None => cabecalho
    end.
Proof.
  cbv zeta. unfold _escrever_df. cbn [fst].
  rewrite (celulas_laco_largura fst
             (fun cc => Z.max (Z.of_nat (len (snd cc)) + 4) 14)).
  rewrite (celulas_laco_linhas (escrever_linha (colunas df))
             (fun row c x =>
                match item row 1 c with
                | Some v => formatar (nth (Z.to_nat (c - 1)) (colunas df) EmptyString) v
                              (por_valor (Some v) x)
                | None => x
                end)).
  2:{ intros. apply celulas_escrever_linha. }
  rewrite (celulas_laco_linha
             (fun _ h x => por_centro (por_fonte HEADER_FONT
                                         (por_fill (por_valor (Some (VStr h)) x))))).
  destruct (verdadeiro titulo); cbn [andb alterar celulas]; reflexivity.
Qed.

(** The returned rows, a header cell and a data cell of [_escrever_df]. *)
Lemma celulas_da_tabela (ws : worksheet) (df : quadro) (titulo : option string)
    (i j : nat) (h : string) (row : list valor_celula) (v : valor_celula) :
  nth_error (colunas df) j = Some h ->
  nth_error (linhas_q df) i = Some row ->
  nth_error row j = Some v ->
  let ws' := fst (_escrever_df ws df titulo) in
  let row_offset := fst (snd (_escrever_df ws df titulo)) in
  let last_row := snd (snd (_escrever_df ws df titulo)) in
  row_offset = (if verdadeiro titulo then 3 else 1)
  /\ last_row = row_offset + Z.of_nat (List.length (linhas_q df))
  /\ celulas ws' row_offset (1 + Z.of_nat j)
     = por_centro (por_fonte HEADER_FONT
                     (por_fill (por_valor (Some (VStr h))
                                  (celulas ws row_offset (1 + Z.of_nat j)))))
  /\ celulas ws' (row_offset + 1 + Z.of_nat i) (1 + Z.of_nat j)
     = formatar h v
         (por_valor (Some v)
            (celulas ws (row_offset + 1 + Z.of_nat i) (1 + Z.of_nat j))).
Proof.
  intros Hh Hrow Hv. cbv zeta.
  assert (Hro : fst (snd (_escrever_df ws df titulo))
                = if verdadeiro titulo then 3 else 1) by reflexivity.
  rewrite Hro. split; [reflexivity|]. split; [reflexivity|].
  rewrite !celulas_escrever_df. cbv zeta.
  set (ro := if verdadeiro titulo then 3 else 1).
  assert (Hro13 : ro = 1 \/ ro = 3) by (unfold ro; destruct (verdadeiro titulo); auto).
  split.
  - rewrite item_antes by lia. rewrite Z.eqb_refl, item_nat, Hh.
    replace (verdadeiro titulo && (ro =? 1) && (1 + Z.of_nat j =? 1))
      with (verdadeiro titulo && (ro =? 1) && false && (1 + Z.of_nat j =? 1)).
    + now rewrite andb_false_r.
    + unfold ro. destruct (verdadeiro titulo); reflexivity.
  - rewrite (item_nat (linhas_q df) (ro + 1) i), Hrow, item_nat, Hv.
    replace (Z.to_nat (1 + Z.of_nat j - 1)) with j by lia.
    rewrite (nth_error_nth _ _ _ Hh).
    destruct (Z.eqb_spec (ro + 1 + Z.of_nat i) ro) as [E | _]; [lia|].
    destruct (Z.eqb_spec (ro + 1 + Z.of_nat i) 1) as [E | _]; [lia|].
    now rewrite andb_false_r.
Qed.

(** [_escrever_df] returns the row of the header (3 under a title, 1
    without) and the row of the last data row; the header cell of column
    [j+1] holds the name of column [j] with the header style; and the cell of
    data row [i] and column [j] holds the value of the frame, in row
    [row_offset + 1 + i], with the number format that the column's name and
    the value's type select. *)
Theorem escrever_df_tabela (ws : worksheet) (df : quadro) (titulo : option string)
    (i j : nat) (h : string) (row : list valor_celula) (v : valor_celula) :
  nth_error (colunas df) j = Some h ->
  nth_error (linhas_q df) i = Some row ->
  nth_error row j = Some v ->
  let ws' := fst (_escrever_df ws df titulo) in
  let row_offset := fst (snd (_escrever_df ws df titulo)) in
  let last_row := snd (snd (_escrever_df ws df titulo)) in
  row_offset = (if verdadeiro titulo then 3 else 1)
  /\ last_row = row_offset + Z.of_nat (List.length (linhas_q df))
  /\ celulas ws' row_offset (1 + Z.of_nat j)
     = por_centro (por_fonte HEADER_FONT
                     (por_fill (por_valor (Some (VStr h))
                                  (celulas ws row_offset (1 + Z.of_nat j)))))
  /\ celulas ws' (row_offset + 1 + Z.of_nat i) (1 + Z.of_nat j)
     = formatar h v
         (por_valor (Some v)
            (celulas ws (row_offset + 1 + Z.of_nat i) (1 + Z.of_nat j))).
Proof.
  intros Hh Hrow Hv. cbv zeta.
  pose proof (celulas_da_tabela ws df titulo i j h row v Hh Hrow Hv) as H.
  cbv zeta in H. destruct H as [H1 [H2 [H3 H4]]].
  split; [exact H1|]. split; [exact H2|]. split; [exact H3 | exact H4].
Qed.

Lemma escrever_df_tabela_witness :
  fst (snd (_escrever_df ws_com_nota quadro_exemplo (Some "Valuation"%string))) = 3
  /\ snd (snd (_escrever_df ws_com_nota quadro_exemplo (Some "Valuation"%string)))
     = fst (snd (_escrever_df ws_com_nota quadro_exemplo (Some "Valuation"%string)))
       + 2
  /\ celulas (fst (_escrever_df ws_com_nota quadro_exemplo (Some "Valuation"%string)))
       (fst (snd (_escrever_df ws_com_nota quadro_exemplo (Some "Valuation"%string))))
       (1 + 2)
     = por_centro (por_fonte HEADER_FONT
                     (por_fill (por_valor (Some (VStr "ROE"))
                                  (celulas ws_com_nota 3 (1 + 2)))))
  /\ celulas (fst (_escrever_df ws_com_nota quadro_exemplo (Some "Valuation"%string)))
       (3 + 1 + 1) (1 + 2)
     = formatar "ROE" (VFloat (flt 0.12))
         (por_valor (Some (VFloat (flt 0.12))) (celulas ws_com_nota (3 + 1 + 1) (1 + 2))).
Proof.
  apply (escrever_df_tabela ws_com_nota quadro_exemplo (Some "Valuation"%string)
           1 2 "ROE" [VStr "Bradesco"; VInt 2022; VFloat (flt 0.12)]
           (VFloat (flt 0.12))); reflexivity.
Defined.

(** [_escrever_df] changes no cell above row 1, below the last row it
    returns, left of column A, or right of the last column of the frame
    (column A at least, where the title goes). *)
Theorem escrever_df_fora_da_tabela (ws : worksheet) (df : quadro)
    (titulo : option string) (r c : Z) :
  quadro_bem_formado df ->
  r < 1 \/ snd (snd (_escrever_df ws df titulo)) < r \/ c < 1
  \/ Z.max 1 (Z.of_nat (List.length (colunas df))) < c ->
  celulas (fst (_escrever_df ws df titulo)) r c = celulas ws r c.
Proof.
  intros Hbf Hfora. rewrite celulas_escrever_df. cbv zeta.
  change (snd (snd (_escrever_df ws df titulo)))
    with ((if verdadeiro titulo then 3 else 1) + Z.of_nat (List.length (linhas_q df)))
    in Hfora.
  set (ro := if verdadeiro titulo then 3 else 1) in *.
  assert (Hro13 : ro = 1 \/ ro = 3) by (unfold ro; destruct (verdadeiro titulo); auto).
  assert (Hitem : forall (A : Type) (l : list A) (x : A),
            item l 1 c = Some x -> 1 <= c <= Z.of_nat (List.length l)).
  { intros A l x H. unfold item in H. destruct (Z.ltb_spec c 1); [discriminate H|].
    assert (Z.to_nat (c - 1) < List.length l)%nat
      by (apply nth_error_Some; now rewrite H). lia. }
  assert (Hcab :
    match (if r =? ro then item (colunas df) 1 c else None) with
    | Some h0 =>
        por_centro (por_fonte HEADER_FONT
          (por_fill (por_valor (Some (VStr h0))
             (if verdadeiro titulo && (r =? 1) && (c =? 1)
              then por_fonte TITLE_FONT
                     (por_valor (option_map VStr titulo) (celulas ws r c))
              else celulas ws r c))))
    | None =>
        if verdadeiro titulo && (r =? 1) && (c =? 1)
        then por_fonte TITLE_FONT (por_valor (option_map VStr titulo) (celulas ws r c))
        else celulas ws r c
    end = celulas ws r c).
  { assert (Ht : verdadeiro titulo && (r =? 1) && (c =? 1) = false).
    { destruct (Z.eqb_spec r 1) as [-> | _]; [|now rewrite andb_false_r].
      destruct (Z.eqb_spec c 1) as [-> | _]; [|now rewrite andb_false_r].
      exfalso. lia. }
    rewrite Ht.
    destruct (Z.eqb_spec r ro) as [-> | _]; [|reflexivity].
    destruct (item (colunas df) 1 c) as [h0 |] eqn:E; [|reflexivity].
    apply Hitem in E. exfalso. lia. }
  destruct (item (linhas_q df) (ro + 1) r) as [row |] eqn:Er; [|exact Hcab].
  destruct (item row 1 c) as [v |] eqn:Ec; [|exact Hcab].
  exfalso. apply Hitem in Ec.
  assert (Hrow : In row (linhas_q df)).
  { unfold item in Er. destruct (r <? ro + 1); [discriminate Er|].
    now apply nth_error_In in Er. }
  rewrite (Hbf row Hrow) in Ec.
  assert (Hr : ro + 1 <= r <= ro + Z.of_nat (List.length (linhas_q df))).
  { unfold item in Er. destruct (Z.ltb_spec r (ro + 1)); [discriminate Er|].
    assert (Z.to_nat (r - (ro + 1)) < List.length (linhas_q df))%nat
      by (apply nth_error_Some; now rewrite Er). lia. }
  lia.
Qed.

Lemma escrever_df_fora_da_tabela_witness :
  celulas (fst (_escrever_df ws_com_nota quadro_exemplo None)) 7 1
  = celulas ws_com_nota 7 1.
Proof.
  apply escrever_df_fora_da_tabela.
  - intros row Hrow. cbn in Hrow.
    repeat (destruct Hrow as [<- | Hrow]; [reflexivity|]). contradiction.
  - right. left. cbn. lia.
Defined.

(** In the sheet of a bank, the columns that [cols.index(...) + 1] gives
    for "Ano", "ROE", "Ke" and "spread_valor" hold, from [row_ini] to
    [row_fim], the column's name and then the values of the table in its
    order, the three rates formatted as percentages: the ranges the charts of
    the sheet refer to. *)
Theorem folha_do_banco (ws : worksheet) (df : list linha_capm)
    (titulo : option string) (i : nat) (r : linha_capm) :
  nth_error df i = Some r ->
  let ws' := fst (_escrever_df ws (quadro_capm df) titulo) in
  let row_ini := fst (snd (_escrever_df ws (quadro_capm df) titulo)) in
  let row_fim := snd (snd (_escrever_df ws (quadro_capm df) titulo)) in
  row_fim = row_ini + Z.of_nat (List.length df)
  /\ (indice "Ano" colunas_capm = Some 0
      /\ cel_valor (celulas ws' row_ini (0 + 1)) = Some (VStr "Ano")
      /\ cel_valor (celulas ws' (row_ini + 1 + Z.of_nat i) (0 + 1))
         = Some (VInt (Ano (base r))))
  /\ (indice "ROE" colunas_capm = Some 4
      /\ cel_valor (celulas ws' row_ini (4 + 1)) = Some (VStr "ROE")
      /\ cel_valor (celulas ws' (row_ini + 1 + Z.of_nat i) (4 + 1))
         = Some (VFloat (ROE (base r)))
      /\ cel_formato (celulas ws' (row_ini + 1 + Z.of_nat i) (4 + 1)) = "0.00%"%string)
  /\ (indice "Ke" colunas_capm = Some 8
      /\ cel_valor (celulas ws' row_ini (8 + 1)) = Some (VStr "Ke")
      /\ cel_valor (celulas ws' (row_ini + 1 + Z.of_nat i) (8 + 1))
         = Some (VFloat (Ke r))
      /\ cel_formato (celulas ws' (row_ini + 1 + Z.of_nat i) (8 + 1)) = "0.00%"%string)
  /\ (indice "spread_valor" colunas_capm = Some 9
      /\ cel_valor (celulas ws' row_ini (9 + 1)) = Some (VStr "spread_valor")
      /\ cel_valor (celulas ws' (row_ini + 1 + Z.of_nat i) (9 + 1))
         = Some (VFloat (spread_valor r))
      /\ cel_formato (celulas ws' (row_ini + 1 + Z.of_nat i) (9 + 1))
         = "0.00%"%string).
Proof.
  intros Hr. cbv zeta.
  assert (Hrow : nth_error (linhas_q (quadro_capm df)) i = Some (valores_capm r))
    by (cbn; now apply map_nth_error).
  pose proof (fun j h v Hh Hv =>
                celulas_da_tabela ws (quadro_capm df) titulo i j h
                  (valores_capm r) v Hh Hrow Hv) as T.
  cbv zeta in T.
  destruct (T 0%nat "Ano"%string (VInt (Ano (base r))) eq_refl eq_refl)
    as [_ [Hfim [Ha0 Ha1]]].
  destruct (T 4%nat "ROE"%string (VFloat (ROE (base r))) eq_refl eq_refl)
    as [_ [_ [Hr0 Hr1]]].
  destruct (T 8%nat "Ke"%string (VFloat (Ke r)) eq_refl eq_refl)
    as [_ [_ [Hk0 Hk1]]].
  destruct (T 9%nat "spread_valor"%string (VFloat (spread_valor r)) eq_refl eq_refl)
    as [_ [_ [Hs0 Hs1]]].
  change (1 + Z.of_nat 0) with (0 + 1) in Ha0, Ha1.
  change (1 + Z.of_nat 4) with (4 + 1) in Hr0, Hr1.
  change (1 + Z.of_nat 8) with (8 + 1) in Hk0, Hk1.
  change (1 + Z.of_nat 9) with (9 + 1) in Hs0, Hs1.
  split.
  { rewrite Hfim. cbn [quadro_capm linhas_q]. now rewrite length_map. }
  rewrite Ha0, Ha1, Hr0, Hr1, Hk0, Hk1, Hs0, Hs1.
  repeat split.
Qed.

Lemma folha_do_banco_witness :
  snd (snd (_escrever_df ws_nova (quadro_capm tabela_exemplo) (Some "Bradesco"%string)))
  = fst (snd (_escrever_df ws_nova (quadro_capm tabela_exemplo) (Some "Bradesco"%string)))
    + 1
  /\ cel_valor
       (celulas (fst (_escrever_df ws_nova (quadro_capm tabela_exemplo)
                        (Some "Bradesco"%string))) (3 + 1 + 0) (4 + 1))
     = Some (VFloat (flt (120 # 1100))).
Proof.
  pose proof (folha_do_banco ws_nova tabela_exemplo (Some "Bradesco"%string) 0
                linha_capm_cenario eq_refl) as H.
  cbv zeta in H. destruct H as [H1 [_ [[_ [_ [H2 _]]] _]]].
  split; [exact H1 | exact H2].
Defined.

(* ------------------------------------------------------------------ *)
(** ** The comparative sheets *)

Lemma campo_de_Ok (campo : string) (br : string * linha_capm) :
  campo_numerico campo = true -> exists v, campo_de campo br = Ok v.
Proof.
  unfold campo_numerico, pertence, colunas_todos, campo_de. cbn [existsb].
  destruct (String.eqb campo "ROE"); [intros _; eexists; reflexivity|].
  destruct (String.eqb campo "Ke"); [intros _; eexists; reflexivity|].
  destruct (String.eqb campo "spread_valor"); [intros _; eexists; reflexivity|].
  destruct (String.eqb campo "Rf"); [intros _; eexists; reflexivity|].
  destruct (String.eqb campo "Rm"); [intros _; eexists; reflexivity|].
  destruct (String.eqb campo "beta"); [intros _; eexists; reflexivity|].
  destruct (String.eqb campo "Lucro_Liquido"); [intros _; eexists; reflexivity|].
  destruct (String.eqb campo "PL_Controlador"); [intros _; eexists; reflexivity|].
  destruct (String.eqb campo "PL_Inicial"); [intros _; eexists; reflexivity|].
  destruct (String.eqb campo "Ano"); [intros _; eexists; reflexivity|].
  destruct (String.eqb campo "Banco"); cbn; discriminate.
Qed.

Lemma valor_pivot_numerico (todos : list (string * linha_capm)) (campo b : string)
    (a : Z) :
  campo_numerico campo = true ->
  valor_pivot todos campo b a = Ok (valor_numerico todos campo b a).
Proof.
  intros H. unfold valor_pivot, valor_numerico, linhas_de.
  assert (Hp : pertence campo colunas_todos = true)
    by (unfold campo_numerico in H; now apply andb_true_iff in H).
  rewrite Hp. cbn [negb].
  destruct (filter _ todos) as [| br rest]; [reflexivity|].
  destruct (campo_de_Ok campo br H) as [v ->]. reflexivity.
Qed.

Lemma fold_left_Ok {A B : Type} (passo : result A -> B -> result A)
    (h : A -> B -> A) (l : list B) :
  (forall x y, passo (Ok x) y = Ok (h x y)) ->
  forall x, fold_left passo l (Ok x) = Ok (fold_left h l x).
Proof.
  intros H. induction l as [| y l IH]; intros x; cbn; [reflexivity|].
  now rewrite H, IH.
Qed.

Lemma fold_left_Raise {A B : Type} (passo : result A -> B -> result A)
    (l : list B) (e : excecao) :
  (forall y, passo (Raise e) y = Raise e) ->
  fold_left passo l (Raise e) = Raise e.
Proof.
  intros H. induction l as [| y l IH]; cbn; [reflexivity|]. now rewrite H, IH.
Qed.

Lemma linha_pivot_numerica_Ok (todos : list (string * linha_capm)) (campo : string)
    (bancos : list string) (ws : worksheet) (r ano : Z) :
  campo_numerico campo = true ->
  linha_pivot todos campo bancos ws r ano
  = Ok (linha_pivot_numerica todos campo bancos ws r ano).
Proof.
  intros H. unfold linha_pivot, linha_pivot_numerica.
  apply (fold_left_Ok _
           (fun ws cb =>
              alterar ws r (fst cb)
                (cel_pivot campo (valor_numerico todos campo (snd cb) ano)))).
  intros x y. cbn [bind]. rewrite (valor_pivot_numerico todos campo (snd y) ano H).
  reflexivity.
Qed.

Lemma celulas_linha_pivot_numerica (todos : list (string * linha_capm))
    (campo : string) (bancos : list string) (ws : worksheet) (r ano r' c' : Z) :
  celulas (linha_pivot_numerica todos campo bancos ws r ano) r' c'
  = if r' =? r
    then match item bancos 2 c' with
         | Some b => cel_pivot campo (valor_numerico todos campo b ano)
                       (celulas ws r' c')
         | None => if c' =? 1 then por_valor (Some (VInt ano)) (celulas ws r' c')
                   else celulas ws r' c'
         end
    else celulas ws r' c'.
Proof.
  unfold linha_pivot_numerica.
  rewrite (celulas_laco_linha
             (fun _ b => cel_pivot campo (valor_numerico todos campo b ano))).
  cbn [alterar celulas].
  destruct (Z.eqb_spec r' r) as [-> | _]; cbn [andb]; [|reflexivity].
  destruct (item bancos 2 c') as [b |] eqn:E; [|reflexivity].
  destruct (Z.eqb_spec c' 1) as [-> | _]; [|reflexivity].
  rewrite item_antes in E by lia. discriminate E.
Qed.

Lemma tabela_pivot_numerica (todos : list (string * linha_capm)) (campo : string)
    (bancos : list string) (anos : list Z) (ws : worksheet) :
  campo_numerico campo = true ->
  exists ws',
    _tabela_pivot todos campo bancos anos ws = Ok ws'
    /\ forall r' c',
         celulas ws' r' c'
         = let topo :=
             if (r' =? 1) && (c' =? 1)
             then por_fill (por_fonte HEADER_FONT
                              (por_valor (Some (VStr "Ano")) (celulas ws r' c')))
             else celulas ws r' c' in
           let cabecalho :=
             match (if r' =? 1 then item bancos 2 c' else None) with
             | Some b => por_fill (por_fonte HEADER_FONT
                                     (por_valor (Some (VStr b)) topo))
             | None => topo
             end in
           match item anos 2 r' with
           | Some ano =>
               match item bancos 2 c' with
               | Some b => cel_pivot campo (valor_numerico todos campo b ano) cabecalho
               | None => if c' =? 1 then por_valor (Some (VInt ano)) cabecalho
                         else cabecalho
               end
           | None => cabecalho
           end.
Proof.
  intros H. unfold _tabela_pivot.
  rewrite (fold_left_Ok _
             (fun ws ra => linha_pivot_numerica todos campo bancos ws (fst ra) (snd ra))).
  2:{ intros x y. cbn [bind]. now apply linha_pivot_numerica_Ok. }
  cbn [bind]. eexists. split; [reflexivity|].
  intros r' c'. cbv zeta.
  rewrite (celulas_laco_largura (fun c => c) (fun _ => 16)).
  rewrite (celulas_laco_linhas
             (linha_pivot_numerica todos campo bancos)
             (fun ano c x =>
                match item bancos 2 c with
                | Some b => cel_pivot campo (valor_numerico todos campo b ano) x
                | None => if c =? 1 then por_valor (Some (VInt ano)) x else x
                end)).
  2:{ intros. apply celulas_linha_pivot_numerica. }
  rewrite (celulas_laco_linha
             (fun _ b x => por_fill (por_fonte HEADER_FONT
                                       (por_valor (Some (VStr b)) x)))).
  reflexivity.
Qed.

(** The corner, a header cell, a year cell and a value cell of
    [_tabela_pivot]. *)
Lemma celulas_do_pivot (todos : list (string * linha_capm)) (campo : string)
    (bancos : list string) (anos : list Z) (ws : worksheet) (i j : nat)
    (a : Z) (b : string) :
  campo_numerico campo = true ->
  nth_error anos i = Some a ->
  nth_error bancos j = Some b ->
  exists ws',
    _tabela_pivot todos campo bancos anos ws = Ok ws'
    /\ cel_valor (celulas ws' 1 1) = Some (VStr "Ano")
    /\ cel_valor (celulas ws' 1 (2 + Z.of_nat j)) = Some (VStr b)
    /\ cel_valor (celulas ws' (2 + Z.of_nat i) 1) = Some (VInt a)
    /\ match linhas_de todos b a with
       | [] => celulas ws' (2 + Z.of_nat i) (2 + Z.of_nat j)
               = celulas ws (2 + Z.of_nat i) (2 + Z.of_nat j)
       | br :: _ =>
           exists v, campo_de campo br = Ok v
                     /\ cel_valor (celulas ws' (2 + Z.of_nat i) (2 + Z.of_nat j))
                        = Some (VFloat v)
                     /\ (pertence campo COL_PCTS = true ->
                         cel_formato (celulas ws' (2 + Z.of_nat i) (2 + Z.of_nat j))
                         = "0.00%"%string)
       end.
Proof.
  intros H Ha Hb.
  destruct (tabela_pivot_numerica todos campo bancos anos ws H) as [ws' [E Hc]].
  exists ws'. split; [exact E|]. rewrite !Hc. cbv zeta.
  split; [|split; [|split]].
  - rewrite (item_antes anos 2 1), (item_antes bancos 2 1) by lia. reflexivity.
  - rewrite (item_antes anos 2 1) by lia.
    rewrite Z.eqb_refl, item_nat, Hb. reflexivity.
  - rewrite item_nat, Ha, (item_antes bancos 2 1) by lia.
    destruct (Z.eqb_spec (2 + Z.of_nat i) 1) as [E1 | _]; [lia|]. reflexivity.
  - rewrite item_nat, Ha, item_nat, Hb.
    destruct (Z.eqb_spec (2 + Z.of_nat i) 1) as [E1 | _]; [lia|]. cbn [andb].
    unfold valor_numerico.
    destruct (linhas_de todos b a) as [| br rest]; [reflexivity|].
    destruct (campo_de_Ok campo br H) as [v Hv]. exists v. rewrite Hv.
    split; [reflexivity|]. unfold cel_pivot. cbn [option_map].
    split; [now destruct (pertence campo COL_PCTS)|].
    now intros ->.
Qed.

(** For a numeric column, [_tabela_pivot] raises nothing; cell A1 holds
    "Ano", row 1 the banks from column B on and column A the years from row 2
    on; and the cell of year [i] and bank [j] holds the field of the first row
    of that bank and year, as a percentage when the field is a rate, or keeps
    its value when there is no such row. *)
Theorem tabela_pivot_celulas (todos : list (string * linha_capm)) (campo : string)
    (bancos : list string) (anos : list Z) (ws : worksheet) (i j : nat)
    (a : Z) (b : string) :
  campo_numerico campo = true ->
  nth_error anos i = Some a ->
  nth_error bancos j = Some b ->
  exists ws',
    _tabela_pivot todos campo bancos anos ws = Ok ws'
    /\ cel_valor (celulas ws' 1 1) = Some (VStr "Ano")
    /\ cel_valor (celulas ws' 1 (2 + Z.of_nat j)) = Some (VStr b)
    /\ cel_valor (celulas ws' (2 + Z.of_nat i) 1) = Some (VInt a)
    /\ match linhas_de todos b a with
       | [] => celulas ws' (2 + Z.of_nat i) (2 + Z.of_nat j)
               = celulas ws (2 + Z.of_nat i) (2 + Z.of_nat j)
       | br :: _ =>
           exists v, campo_de campo br = Ok v
                     /\ cel_valor (celulas ws' (2 + Z.of_nat i) (2 + Z.of_nat j))
                        = Some (VFloat v)
                     /\ (pertence campo COL_PCTS = true ->
                         cel_formato (celulas ws' (2 + Z.of_nat i) (2 + Z.of_nat j))
                         = "0.00%"%string)
       end.
Proof.
  intros H Ha Hb.
  destruct (celulas_do_pivot todos campo bancos anos ws i j a b H Ha Hb)
    as [ws' [E Hc]].
  exists ws'. split; [exact E | exact Hc].
Qed.

Lemma tabela_pivot_celulas_witness :
  exists ws',
    _tabela_pivot todos_exemplo "ROE" ["Bradesco"; "Santander BR"]%string
      [2021; 2022] ws_nova = Ok ws'
    /\ cel_valor (celulas ws' 1 1) = Some (VStr "Ano")
    /\ cel_valor (celulas ws' 1 (2 + 1)) = Some (VStr "Santander BR")
    /\ cel_valor (celulas ws' (2 + 0) 1) = Some (VInt 2021)
    /\ celulas ws' (2 + 0) (2 + 1) = celulas ws_nova (2 + 0) (2 + 1).
Proof.
  exact (tabela_pivot_celulas todos_exemplo "ROE" ["Bradesco"; "Santander BR"]%string
           [2021; 2022] ws_nova 0 1 2021 "Santander BR" eq_refl eq_refl eq_refl).
Defined.

Lemma linha_pivot_Raise (todos : list (string * linha_capm)) (campo : string)
    (bancos : list string) (ws : worksheet) (r a : Z) :
  pertence campo colunas_todos = false ->
  bancos <> [] ->
  linha_pivot todos campo bancos ws r a = Raise (KeyError campo).
Proof.
  intros H Hb. unfold linha_pivot.
  destruct bancos as [| b bancos]; [contradiction|].
  cbn [enumerar fold_left bind]. unfold valor_pivot at 2. rewrite H.
  cbn [negb bind]. apply fold_left_Raise. intros y. reflexivity.
Qed.

(** A [campo] that is no column of the consolidated frame is a KeyError as
    soon as one cell is computed, that is whenever there is a year and a
    bank. *)
Theorem tabela_pivot_campo_desconhecido (todos : list (string * linha_capm))
    (campo : string) (bancos : list string) (anos : list Z) (ws : worksheet) :
  pertence campo colunas_todos = false ->
  anos <> [] ->
  bancos <> [] ->
  _tabela_pivot todos campo bancos anos ws = Raise (KeyError campo).
Proof.
  intros H Ha Hb. unfold _tabela_pivot.
  destruct anos as [| a anos]; [contradiction|].
  cbn [enumerar fold_left bind fst snd].
  rewrite (linha_pivot_Raise todos campo bancos _ 2 a H Hb).
  rewrite fold_left_Raise by (intros y; reflexivity).
  reflexivity.
Qed.

Lemma tabela_pivot_campo_desconhecido_witness :
  _tabela_pivot todos_exemplo "ROA" ["Bradesco"%string] [2021; 2022] ws_nova
  = Raise (KeyError "ROA").
Proof.
  apply (tabela_pivot_campo_desconhecido todos_exemplo "ROA");
    [reflexivity | discriminate | discriminate].
Defined.

(* ------------------------------------------------------------------ *)
(** ** The comparative sheets of a run *)

Lemma linhas_de_df_todos (res : dict (list linha_capm)) (b : string)
    (df : list linha_capm) (a : Z) :
  NoDup (map fst res) ->
  dict_get b res = Some df ->
  linhas_de (df_todos res) b a
  = map (fun r => (b, r)) (filter (fun r => Ano (base r) =? a) df).
Proof.
  unfold linhas_de, df_todos.
  induction res as [| [k t] res IH]; cbn [dict_get]; [discriminate|].
  intros Hnd Hget. inversion Hnd as [| ? ? Hk Hnd']; subst.
  cbn [flat_map fst snd]. rewrite filter_app, filter_map_comm. cbn [fst snd].
  destruct (String.eqb_spec k b) as [-> | Hne].
  - injection Hget as ->.
    cbn [andb].
    rewrite (filter_vazio _ (flat_map _ res)); [now rewrite app_nil_r|].
    intros [k' r] Hin. apply in_flat_map in Hin. destruct Hin as [[k0 t0] [Hkt Hr]].
    apply in_map_iff in Hr. destruct Hr as [r0 [E _]]. cbn in E. injection E as -> ->.
    cbn [fst]. destruct (String.eqb_spec k' b) as [-> | _]; [|reflexivity].
    exfalso. apply Hk. apply in_map_iff. now exists (b, t0).
  - cbn [andb]. rewrite (filter_vazio _ t) by reflexivity.
    cbn [map app]. now apply IH.
Qed.

(** In a comparative sheet of a run, with the banks and the years that
    [criar_excel] lists, the cell of a year and a bank holds the field of the
    first row of that year in the bank's own table, and keeps its value when
    the table has no row for the year; the years run in ascending order, each
    once. *)
Theorem pivot_do_resultado (res : dict (list linha_capm)) (campo : string)
    (ws : worksheet) (i j : nat) (a : Z) (b : string) (df : list linha_capm) :
  NoDup (map fst res) ->
  dict_get b res = Some df ->
  campo_numerico campo = true ->
  nth_error (anos_unicos res) i = Some a ->
  nth_error (bancos_unicos res) j = Some b ->
  StronglySorted Z.lt (anos_unicos res)
  /\ exists ws',
       _tabela_pivot (df_todos res) campo (bancos_unicos res) (anos_unicos res) ws
       = Ok ws'
       /\ cel_valor (celulas ws' (2 + Z.of_nat i) 1) = Some (VInt a)
       /\ cel_valor (celulas ws' 1 (2 + Z.of_nat j)) = Some (VStr b)
       /\ match filter (fun r => Ano (base r) =? a) df with
          | [] => celulas ws' (2 + Z.of_nat i) (2 + Z.of_nat j)
                  = celulas ws (2 + Z.of_nat i) (2 + Z.of_nat j)
          | r :: _ =>
              exists v, campo_de campo (b, r) = Ok v
                        /\ cel_valor (celulas ws' (2 + Z.of_nat i) (2 + Z.of_nat j))
                           = Some (VFloat v)
          end.
Proof.
  intros Hnd Hget Hcampo Ha Hb. split; [apply chaves_ordenada|].
  destruct (celulas_do_pivot (df_todos res) campo (bancos_unicos res)
              (anos_unicos res) ws i j a b Hcampo Ha Hb)
    as [ws' [E [_ [Hcab [Hano Hcel]]]]].
  exists ws'. repeat (split; [assumption|]).
  rewrite (linhas_de_df_todos res b df a Hnd Hget) in Hcel.
  destruct (filter (fun r => Ano (base r) =? a) df) as [| r rest]; [exact Hcel|].
  cbn [map] in Hcel. destruct Hcel as [v [Hv [Hval _]]]. now exists v.
Qed.

Lemma pivot_do_resultado_witness :
  StronglySorted Z.lt (anos_unicos resultados_exemplo)
  /\ exists ws',
       _tabela_pivot (df_todos resultados_exemplo) "ROE"
         (bancos_unicos resultados_exemplo) (anos_unicos resultados_exemplo) ws_nova
       = Ok ws'
       /\ cel_valor (celulas ws' (2 + 0) 1) = Some (VInt 2021)
       /\ cel_valor (celulas ws' 1 (2 + 1)) = Some (VStr "Santander BR")
       /\ celulas ws' (2 + 0) (2 + 1) = celulas ws_nova (2 + 0) (2 + 1).
Proof.
  apply (pivot_do_resultado resultados_exemplo "ROE" ws_nova 0 1 2021 "Santander BR"
           [ linha_capm_cenario ]).
  - repeat constructor; cbn; intuition discriminate.
  - reflexivity.
  - reflexivity.
  - reflexivity.
  - reflexivity.
Defined.
